(** * EDGAR_SEC: extraction of the facts of one filing

    A shallow embedding of the extraction layer of [EDGAR_SEC.py]:
    [get_value_for_accession], [process_financial_statement] and the three
    statement processors built on it.

    The facts repository is what [json()] hands to the code, so it is
    modelled as a dynamically typed Python value ([pyval]); every operation
    the code performs on it ([in], subscription, iteration, [==], [split],
    tuple unpacking) is modelled together with the exception it raises on a
    value of the wrong shape.  Well-formedness of a repository is then an
    ordinary (boolean) predicate on such values. *)

From Stdlib Require Import ZArith String Ascii List Permutation SpecFloat.
From stdpp Require Import base option list gmap strings.

Set Warnings "-register-all".
Open Scope string_scope.
Open Scope list_scope.

(** ** Python values and exceptions *)

(** The values [json.loads] can produce.  A JSON object has string keys,
    each at most once, and the code reads parsed objects by key only, so
    objects are finite maps.  Integers are unbounded; floats are IEEE
    values, carried around but never computed with. *)
Inductive pyval : Type :=
  | PNone
  | PBool (b : bool)
  | PInt (z : Z)
  | PFloat (f : spec_float)
  | PStr (s : string)
  | PList (l : list pyval)
  | PDict (d : gmap string pyval).

Inductive exn : Type :=
  | TypeError
  | KeyError
  | ValueError.

Inductive result (A : Type) : Type :=
  | Ok (a : A)
  | Raise (e : exn).
Arguments Ok {A} a.
Arguments Raise {A} e.

#[global] Instance result_ret : MRet result := fun _ a => Ok a.
#[global] Instance result_bind : MBind result := fun _ _ k m =>
  match m with
  | Ok a => k a
  | Raise e => Raise e
  end.

(** ** The Python operations used by the module *)

(** [needle in hay] for two strings: substring test. *)
Fixpoint str_contains (needle hay : string) : bool :=
  String.prefix needle hay ||
  match hay with
  | EmptyString => false
  | String _ hay' => str_contains needle hay'
  end.

(** [v == s] where [s] is a [str]: only a [str] can be equal to it. *)
Definition py_eq_str (v : pyval) (s : string) : bool :=
  match v with
  | PStr s' => String.eqb s' s
  | _ => false
  end.

(** [key in container] where [key] is a [str]. *)
Definition py_contains (key : string) (container : pyval) : result bool :=
  match container with
  | PDict d => Ok (match d !! key with Some _ => true | None => false end)
  | PList l => Ok (existsb (fun e => py_eq_str e key) l)
  | PStr s => Ok (str_contains key s)
  | PNone | PBool _ | PInt _ | PFloat _ => Raise TypeError
  end.

(** [container[key]] where [key] is a [str]: only a dict can be subscripted
    by a string. *)
Definition py_getitem (container : pyval) (key : string) : result pyval :=
  match container with
  | PDict d =>
      match d !! key with
      | Some v => Ok v
      | None => Raise KeyError
      end
  | _ => Raise TypeError
  end.

Fixpoint chars (s : string) : list pyval :=
  match s with
  | EmptyString => []
  | String c s' => PStr (String c EmptyString) :: chars s'
  end.

(** The elements [for entry in v] runs through.  A dict yields its keys and
    a string its characters.  The keys come in the order of [map_to_list]
    and the characters one per byte, where Python has insertion order and
    one per code point: the code subscripts each element by a string, which
    raises on the first one whatever it holds, so only whether there is an
    element matters. *)
Definition py_iter (v : pyval) : result (list pyval) :=
  match v with
  | PList l => Ok l
  | PDict d => Ok (PStr <$> (map_to_list d).*1)
  | PStr s => Ok (chars s)
  | PNone | PBool _ | PInt _ | PFloat _ => Raise TypeError
  end.

(** [s.split(sep)] for a one-character separator: the pieces between the
    occurrences of [sep], a single piece when there is none.  The separator
    used is ASCII, so splitting the UTF-8 bytes splits the text. *)
Fixpoint split (sep : ascii) (s : string) : list string :=
  match s with
  | EmptyString => [EmptyString]
  | String c s' =>
      if Ascii.eqb c sep then EmptyString :: split sep s'
      else match split sep s' with
           | piece :: pieces => String c piece :: pieces
           | [] => [String c EmptyString]
           end
  end.

(** A Python [dict] whose insertion order is observable (the definitions of
    the reports and the columns of the resulting table): an association
    list.  [dict_set d k v] is [d[k] = v]: an existing key keeps its place. *)
Fixpoint dict_set {V : Type} (d : list (string * V)) (k : string) (v : V)
  : list (string * V) :=
  match d with
  | [] => [(k, v)]
  | (k', v') :: d' =>
      if String.eqb k' k then (k', v) :: d' else (k', v') :: dict_set d' k v
  end.

Fixpoint dict_get {V : Type} (d : list (string * V)) (k : string) : option V :=
  match d with
  | [] => None
  | (k', v') :: d' => if String.eqb k' k then Some v' else dict_get d' k
  end.

(** A [pandas.DataFrame] built from a dict of columns of equal length is
    determined by that dict (column order is insertion order); it is
    represented by it. *)
Definition DataFrame : Type := list (string * list pyval).
Definition pd_DataFrame (data : list (string * list pyval)) : DataFrame := data.

(** ** [get_value_for_accession] *)

(** The loop [for entry in ...: if entry['accn'] == accession_number: return
    entry['val']], followed by the final [return None]. *)
Fixpoint scan_entries (entries : list pyval) (accession_number : string)
  : result pyval :=
  match entries with
  | [] => Ok PNone
  | entry :: rest =>
      accn ← py_getitem entry "accn";
      if py_eq_str accn accession_number then py_getitem entry "val"
      else scan_entries rest accession_number
  end.

Definition get_value_for_accession (item_data : pyval) (accession_number : string)
  : result pyval :=
  has_units ← py_contains "units" item_data;
  has_usd ← (if has_units : bool
             then units ← py_getitem item_data "units"; py_contains "USD" units
             else Ok false);
  if has_usd : bool then
    units ← py_getitem item_data "units";
    usd ← py_getitem units "USD";
    entries ← py_iter usd;
    scan_entries entries accession_number
  else Ok PNone.

(** ** [process_financial_statement] *)

(** One round of the loop over [items.items()], on the dict [data] built so
    far.  The two [logger.info] calls only format strings and do not touch
    [data]; they are left out. *)
Definition process_item (facts_data : pyval) (accession_number : string)
    (data : list (string * list pyval)) (label item_key : string)
  : result (list (string * list pyval)) :=
  match split ":" item_key with
  | [taxonomy; concept] =>
      has_taxonomy ← py_contains taxonomy facts_data;
      has_concept ← (if has_taxonomy : bool
                     then concepts ← py_getitem facts_data taxonomy;
                          py_contains concept concepts
                     else Ok false);
      if has_concept : bool then
        concepts ← py_getitem facts_data taxonomy;
        item_data ← py_getitem concepts concept;
        value ← get_value_for_accession item_data accession_number;
        match value with
        | PNone => Ok data
        | _ => Ok (dict_set data label [value])
        end
      else Ok data
  | _ => Raise ValueError
  end.

Fixpoint process_items (facts_data : pyval) (items : list (string * string))
    (accession_number : string) (data : list (string * list pyval))
  : result (list (string * list pyval)) :=
  match items with
  | [] => Ok data
  | (label, item_key) :: rest =>
      data' ← process_item facts_data accession_number data label item_key;
      process_items facts_data rest accession_number data'
  end.

Definition process_financial_statement (facts_data : pyval)
    (items : list (string * string)) (filing_date : pyval)
    (accession_number : string) : result DataFrame :=
  data ← process_items facts_data items accession_number [];
  Ok (pd_DataFrame data).

(** ** The three statements *)

Definition income_items : list (string * string) :=
  [ ("Revenue", "us-gaap:Revenues");
    ("Cost of Revenue", "us-gaap:CostOfRevenue");
    ("Gross Profit", "us-gaap:GrossProfit");
    ("Operating Expenses", "us-gaap:OperatingExpenses");
    ("Operating Income", "us-gaap:OperatingIncomeLoss");
    ("Net Income", "us-gaap:NetIncomeLoss") ].

Definition process_income_statement (facts_data filing_date : pyval)
    (accession_number : string) : result DataFrame :=
  process_financial_statement facts_data income_items filing_date accession_number.

Definition cash_flow_items : list (string * string) :=
  [ ("Cash from Operating Activities", "us-gaap:NetCashProvidedByUsedInOperatingActivities");
    ("Cash from Investing Activities", "us-gaap:NetCashProvidedByUsedInInvestingActivities");
    ("Cash from Financing Activities", "us-gaap:NetCashProvidedByUsedInFinancingActivities");
    ("Net Change in Cash", "us-gaap:NetIncreaseDecreaseInCash") ].

Definition process_cash_flow_statement (facts_data filing_date : pyval)
    (accession_number : string) : result DataFrame :=
  process_financial_statement facts_data cash_flow_items filing_date accession_number.

Definition balance_sheet_items : list (string * string) :=
  [ ("Total Assets", "us-gaap:Assets");
    ("Total Liabilities", "us-gaap:Liabilities");
    ("Total Equity", "us-gaap:StockholdersEquity");
    ("Cash and Cash Equivalents", "us-gaap:CashAndCashEquivalentsAtCarryingValue");
    ("Total Current Assets", "us-gaap:AssetsCurrent");
    ("Total Current Liabilities", "us-gaap:LiabilitiesCurrent") ].

Definition process_balance_sheet (facts_data filing_date : pyval)
    (accession_number : string) : result DataFrame :=
  process_financial_statement facts_data balance_sheet_items filing_date accession_number.

(** ** The data model, read off Python values *)

(** An Observation is a dict with a string under ["accn"] and a number under
    ["val"]; its other keys are not looked at. *)
Definition is_number (v : pyval) : bool :=
  match v with
  | PInt _ | PFloat _ => true
  | _ => false
  end.

Definition accession (e : pyval) : option string :=
  match e with
  | PDict d =>
      match d !! "accn" with
      | Some (PStr a) => Some a
      | _ => None
      end
  | _ => None
  end.

Definition value (e : pyval) : option pyval :=
  match e with
  | PDict d => d !! "val"
  | _ => None
  end.

Definition is_observation (e : pyval) : bool :=
  match accession e, value e with
  | Some _, Some v => is_number v
  | _, _ => false
  end.

(** Whether the accession of [e] is [acc]. *)
Definition matches (acc : string) (e : pyval) : bool :=
  match accession e with
  | Some a => String.eqb a acc
  | None => false
  end.

(** The sequence stored under the USD unit of an item, when there is one. *)
Definition usd_sequence (item_data : pyval) : option (list pyval) :=
  match item_data with
  | PDict d =>
      match d !! "units" with
      | Some (PDict units) =>
          match units !! "USD" with
          | Some (PList entries) => Some entries
          | _ => None
          end
      | _ => None
      end
  | _ => None
  end.

(** A well-formed item: a dict whose ["units"], if any, is a dict whose
    ["USD"], if any, is a list of Observations.  Units other than USD are
    never read and are left unconstrained. *)
Definition wf_item_data (item_data : pyval) : bool :=
  match item_data with
  | PDict d =>
      match d !! "units" with
      | Some (PDict units) =>
          match units !! "USD" with
          | Some (PList entries) => forallb is_observation entries
          | Some _ => false
          | None => true
          end
      | Some _ => false
      | None => true
      end
  | _ => false
  end.

Definition map_forallb {A : Type} (f : A -> bool) (m : gmap string A) : bool :=
  forallb f (map_to_list m).*2.

(** A well-formed repository: taxonomy -> concept -> well-formed item. *)
Definition wf_taxonomy (concepts : pyval) : bool :=
  match concepts with
  | PDict cs => map_forallb wf_item_data cs
  | _ => false
  end.

Definition wf_facts (facts_data : pyval) : bool :=
  match facts_data with
  | PDict ts => map_forallb wf_taxonomy ts
  | _ => false
  end.

(** The item stored for a concept of a taxonomy, when both are present. *)
Definition concept_record (facts_data : pyval) (taxonomy concept : string)
  : option pyval :=
  match facts_data with
  | PDict ts =>
      match ts !! taxonomy with
      | Some (PDict cs) => cs !! concept
      | _ => None
      end
  | _ => None
  end.

(** A well-formed report definition: every key is [taxonomy:concept], that
    is, holds exactly one colon. *)
Fixpoint count_char (c : ascii) (s : string) : nat :=
  match s with
  | EmptyString => 0
  | String c' s' => (if Ascii.eqb c' c then 1 else 0) + count_char c s'
  end.

Definition wf_item_key (item_key : string) : bool :=
  Nat.eqb (count_char ":" item_key) 1.

Definition wf_items (items : list (string * string)) : bool :=
  forallb (fun '(_, item_key) => wf_item_key item_key) items.

(** Smallest items and entries, for the examples. *)
Definition observation (accn : string) (val : Z) : pyval :=
  PDict {[ "accn" := PStr accn; "val" := PInt val ]}.

Definition usd_item (entries : list pyval) : pyval :=
  PDict {[ "units" := PDict {[ "USD" := PList entries ]} ]}.

(** ** The projection over the data model *)

(** What the projection finds for one key of a report definition, written
    over the data model: the value of the first Observation of the target
    accession in the USD sequence of the concept the key names. *)
Definition first_match (es : list pyval) (acc : string) : option pyval :=
  e ← head (filter (fun e => accession e = Some acc) es); value e.

Definition item_value (item_data : pyval) (acc : string) : option pyval :=
  es ← usd_sequence item_data; first_match es acc.

Definition found_value (facts_data : pyval) (item_key acc : string)
  : option pyval :=
  match split ":" item_key with
  | [taxonomy; concept] =>
      item_data ← concept_record facts_data taxonomy concept;
      item_value item_data acc
  | _ => None
  end.

Definition add_found (facts_data : pyval) (acc : string)
    (data : list (string * list pyval)) (entry : string * string)
  : list (string * list pyval) :=
  match found_value facts_data entry.2 acc with
  | Some v => dict_set data entry.1 [v]
  | None => data
  end.

(** The repository of the end-to-end scenario, with and without the
    ["units"] level, and its report definition. *)
Definition example_items : list (string * string) :=
  [ ("Revenue", "ns:Revenues"); ("Net Income", "ns:NetIncomeLoss") ].

Definition example_facts : pyval :=
  PDict {[ "ns" := PDict {[
    "Revenues" := usd_item [observation "X1" 1000];
    "NetIncomeLoss" := usd_item [observation "X1" 200] ]} ]}.

Definition bare_example_facts : pyval :=
  PDict {[ "ns" := PDict {[
    "Revenues" := PDict {[ "USD" := PList [observation "X1" 1000] ]};
    "NetIncomeLoss" := PDict {[ "USD" := PList [observation "X1" 200] ]} ]} ]}.

(** ** [get_cik] *)

(** [s.splitlines()]: the lines of [s] without their ends.  The line ends
    are \n, \r, \r\n, \v, \f, \x1c, \x1d, \x1e, \x85, \u2028 and
    \u2029, the last three being the UTF-8 bytes 194 133, 226 128 168 and
    226 128 169; a final line end opens no empty line. *)
Definition is_line_break (c : ascii) : bool :=
  existsb (Ascii.eqb c) ["010"; "011"; "012"; "013"; "028"; "029"; "030"]%char.

Fixpoint splitlines (s : string) : list string :=
  match s with
  | EmptyString => []
  | String c s' =>
      let one_byte :=
        if is_line_break c then EmptyString :: splitlines s'
        else match splitlines s' with
             | [] => [String c EmptyString]
             | line :: lines => String c line :: lines
             end in
      if Ascii.eqb c "013" then
        match s' with
        | String c1 s1 =>
            if Ascii.eqb c1 "010" then EmptyString :: splitlines s1 else one_byte
        | EmptyString => one_byte
        end
      else if Ascii.eqb c "194" then
        match s' with
        | String c1 s1 =>
            if Ascii.eqb c1 "133" then EmptyString :: splitlines s1 else one_byte
        | EmptyString => one_byte
        end
      else if Ascii.eqb c "226" then
        match s' with
        | String c1 (String c2 s2) =>
            if Ascii.eqb c1 "128" && (Ascii.eqb c2 "168" || Ascii.eqb c2 "169")
            then EmptyString :: splitlines s2 else one_byte
        | _ => one_byte
        end
      else one_byte
  end.

Definition tab : ascii := "009".

Section Builtins.
(** [str.lower] follows the Unicode case tables and [int] the Unicode digit
    tables; [get_cik] is written over any two such functions.  [int] raises
    ValueError on a string that is not a number. *)
Variable lower : string -> string.
Variable int : string -> result Z.

(** The loop over the lines: [t, c = line.split('\t')] raises ValueError
    unless the line has exactly two fields. *)
Fixpoint scan_lines (lines : list string) (ticker : string) : result (option Z) :=
  match lines with
  | [] => Ok None
  | line :: rest =>
      match split tab line with
      | [t; c] =>
          if String.eqb (lower t) (lower ticker)
          then z ← int c; Ok (Some z)
          else scan_lines rest ticker
      | _ => Raise ValueError
      end
  end.

(** [text] is [response.text] of the request for the ticker file; a
    request that fails raises before the text is read. *)
Definition get_cik (text ticker : string) : result (option Z) :=
  scan_lines (splitlines text) ticker.
End Builtins.

(** [str.lower] on ASCII text and [int] on strings of ASCII digits (short
    of the length at which [int] gives up), where they need no table; used
    to run examples. *)
Definition lower_ascii_char (c : ascii) : ascii :=
  let n := nat_of_ascii c in
  if (65 <=? n)%nat && (n <=? 90)%nat then ascii_of_nat (n + 32) else c.

Fixpoint lower_ascii (s : string) : string :=
  match s with
  | EmptyString => EmptyString
  | String c s' => String (lower_ascii_char c) (lower_ascii s')
  end.

Fixpoint int_digits_from (acc : Z) (s : string) : result Z :=
  match s with
  | EmptyString => Ok acc
  | String c s' =>
      let n := nat_of_ascii c in
      if (48 <=? n)%nat && (n <=? 57)%nat
      then int_digits_from (10 * acc + Z.of_nat (n - 48)) s'
      else Raise ValueError
  end.

Definition int_digits (s : string) : result Z :=
  match s with
  | EmptyString => Raise ValueError
  | _ => int_digits_from 0 s
  end.

(** A ticker file written out: one line [ticker \t cik \n] per entry. *)
Definition ticker_line (entry : string * string) : string :=
  entry.1 +:+ String tab entry.2.

Fixpoint ticker_file (table : list (string * string)) : string :=
  match table with
  | [] => EmptyString
  | entry :: rest => ticker_line entry +:+ String "010" (ticker_file rest)
  end.

(** Whether [s] starts with one of the line ends of [splitlines], and
    whether it holds one anywhere. *)
Definition starts_line_end (s : string) : bool :=
  match s with
  | EmptyString => false
  | String c s' =>
      is_line_break c ||
      (Ascii.eqb c "194" &&
       match s' with
       | String c1 _ => Ascii.eqb c1 "133"
       | EmptyString => false
       end) ||
      (Ascii.eqb c "226" &&
       match s' with
       | String c1 (String c2 _) =>
           Ascii.eqb c1 "128" && (Ascii.eqb c2 "168" || Ascii.eqb c2 "169")
       | _ => false
       end)
  end.

Fixpoint has_line_end (s : string) : bool :=
  match s with
  | EmptyString => false
  | String c s' => starts_line_end (String c s') || has_line_end s'
  end.

(** A field of such a file: no tab and no line end. *)
Definition is_field (s : string) : bool :=
  Nat.eqb (count_char tab s) 0 && negb (has_line_end s).

(** A line of the ticker file that [get_cik] reads and passes over: two
    fields, the first of which is not the ticker up to case. *)
Definition other_ticker (lower : string -> string) (ticker line : string) : Prop :=
  exists t c, split tab line = [t; c] /\ lower t <> lower ticker.

(** The ticker file of the repository's test of [get_cik]. *)
Definition test_ticker_text : string :=
  "aapl" +:+ String tab "0000320193" +:+
  String "010" ("msft" +:+ String tab "0000789019").

(** ** Entries the scan passes over *)

(** What lets the loop of [get_value_for_accession] go on to the next
    entry: a dict whose ["accn"] is there and is not the target string. *)
Definition passed_over (acc : string) (entry : pyval) : Prop :=
  exists d a, entry = PDict d /\ d !! "accn" = Some a /\ a <> PStr acc.

(** The two fields of an entry that the lookup reads. *)
Definition fields_read (entry : pyval) : option string * option pyval :=
  (accession entry, value entry).

(** * Properties *)

(** Case analysis on a Python value that can only be a dict: the other
    shapes are closed by computation. *)
Ltac dict_case v d := destruct v as [| | | | | |d]; try done.

(** ** Item value lookup *)

Section Lookup.
Implicit Types (item_data entry e : pyval) (entries es : list pyval).
Implicit Types (acc : string).

(** On an Observation, one round of the loop neither raises nor looks at
    anything but the two fields. *)
Lemma scan_entries_observation e es acc :
  is_observation e = true ->
  scan_entries (e :: es) acc =
    if matches acc e then from_option Ok (Raise KeyError) (value e)
    else scan_entries es acc.
Proof.
  unfold is_observation, matches, accession, value.
  dict_case e d.
  cbn. destruct (d !! "accn") as [[]|]; try discriminate.
  cbn. destruct (d !! "val"); [|discriminate]. intros _.
  by destruct (String.eqb _ _).
Qed.

Lemma is_observation_value e :
  is_observation e = true ->
  exists v, value e = Some v /\ is_number v = true.
Proof.
  unfold is_observation. destruct (accession e); [|discriminate].
  destruct (value e) as [v|]; [|discriminate]. eauto.
Qed.

Lemma matches_accession acc e :
  matches acc e = true <-> accession e = Some acc.
Proof.
  unfold matches. destruct (accession e) as [a|]; [|by split].
  rewrite String.eqb_eq. split; congruence.
Qed.

Lemma not_matches_accession acc e :
  matches acc e = false <-> accession e <> Some acc.
Proof.
  rewrite <- matches_accession. by destruct (matches acc e).
Qed.

(** The scan skips the Observations of other accessions ... *)
Lemma scan_entries_skip pre es acc :
  forallb is_observation pre = true ->
  Forall (fun x => accession x <> Some acc) pre ->
  scan_entries (pre ++ es) acc = scan_entries es acc.
Proof.
  induction pre as [|x pre IH]; [done|].
  intros [Hx Hpre]%andb_prop Hne. inversion_clear Hne as [|? ? Hxa Hne'].
  rewrite <- app_comm_cons, scan_entries_observation by done.
  apply not_matches_accession in Hxa. rewrite Hxa. by apply IH.
Qed.

(** ... and stops at the first one of the target accession. *)
Lemma scan_entries_hit e es acc v :
  accession e = Some acc -> value e = Some v ->
  scan_entries (e :: es) acc = Ok v.
Proof.
  unfold accession, value. dict_case e d.
  cbn. destruct (d !! "accn") as [[]|]; try discriminate.
  intros [= ->] ->. cbn. by rewrite String.eqb_refl.
Qed.

(** With a USD sequence, the lookup is the scan of that sequence. *)
Lemma get_value_for_accession_usd item_data es acc :
  usd_sequence item_data = Some es ->
  get_value_for_accession item_data acc = scan_entries es acc.
Proof.
  unfold usd_sequence, get_value_for_accession.
  dict_case item_data d.
  cbn. destruct (d !! "units") as [[| | | | |l|u]|]; try discriminate.
  cbn. destruct (u !! "USD") as [[| | | | |l|u']|]; try discriminate.
  by intros [= ->].
Qed.

(** Without ["units"], or without ["USD"] under it, nothing is scanned. *)
Lemma get_value_for_accession_no_units d acc :
  d !! "units" = None ->
  get_value_for_accession (PDict d) acc = Ok PNone.
Proof. intros H. unfold get_value_for_accession. cbn. by rewrite H. Qed.

Lemma get_value_for_accession_no_usd d u acc :
  d !! "units" = Some (PDict u) -> u !! "USD" = None ->
  get_value_for_accession (PDict d) acc = Ok PNone.
Proof.
  intros Hd Hu. unfold get_value_for_accession. cbn. rewrite Hd. cbn.
  by rewrite Hu.
Qed.

(** A scan that returns something else than [None] returns the value of
    an entry of the target accession; this holds for entries of any
    shape. *)
Lemma scan_entries_sound es acc v :
  scan_entries es acc = Ok v -> v <> PNone ->
  exists pre e post,
    es = pre ++ e :: post /\ Forall (fun x => accession x <> Some acc) pre /\
    accession e = Some acc /\ value e = Some v.
Proof.
  induction es as [|e es IH]; cbn; [by intros [= <-]|].
  intros Hscan Hv. dict_case e d.
  cbn in Hscan. destruct (d !! "accn") as [a|] eqn:Ha; [|discriminate].
  cbn in Hscan. destruct (py_eq_str a acc) eqn:Heq.
  - exists [], (PDict d), es. split; [done|]. split; [done|]. cbn. rewrite Ha.
    destruct a; try discriminate. cbn in Heq. apply String.eqb_eq in Heq as ->.
    split; [done|]. by destruct (d !! "val"); [injection Hscan as ->|].
  - destruct (IH Hscan Hv) as (pre & e & post & -> & Hpre & He).
    exists (PDict d :: pre), e, post. split; [done|]. split; [|done].
    constructor; [|done]. cbn. rewrite Ha.
    destruct a; try done. cbn in Heq. apply String.eqb_neq in Heq. congruence.
Qed.

(** Iterating over anything but a list yields strings, which cannot be
    subscripted. *)
Lemma scan_entries_strings (ss : list string) acc v :
  scan_entries (PStr <$> ss) acc = Ok v -> v = PNone.
Proof. destruct ss; cbn; [by intros [= <-]|discriminate]. Qed.

Lemma scan_entries_chars s acc v :
  scan_entries (chars s) acc = Ok v -> v = PNone.
Proof. destruct s; cbn; [by intros [= <-]|discriminate]. Qed.

Lemma get_value_for_accession_sound item_data acc v :
  get_value_for_accession item_data acc = Ok v -> v <> PNone ->
  exists es pre e post,
    usd_sequence item_data = Some es /\ es = pre ++ e :: post /\
    Forall (fun x => accession x <> Some acc) pre /\
    accession e = Some acc /\ value e = Some v.
Proof.
  unfold get_value_for_accession, usd_sequence. intros Hget Hv.
  destruct item_data as [| | | | |l|d]; cbn in Hget; try discriminate.
  - destruct (str_contains _ _); cbn in Hget; [discriminate|].
    by injection Hget as <-.
  - destruct (existsb _ _); cbn in Hget; [discriminate|].
    by injection Hget as <-.
  - destruct (d !! "units") as [units|]; cbn in Hget;
      [|by injection Hget as <-].
    destruct units as [| | | | |l|u]; cbn in Hget; try discriminate.
    + destruct (str_contains _ _); cbn in Hget; [discriminate|].
      by injection Hget as <-.
    + destruct (existsb _ _); cbn in Hget; [discriminate|].
      by injection Hget as <-.
    + destruct (u !! "USD") as [usd|]; cbn in Hget;
        [|by injection Hget as <-].
      destruct usd as [| | | | |es|u']; cbn in Hget; try discriminate.
      * by apply scan_entries_chars in Hget.
      * destruct (scan_entries_sound _ _ _ Hget Hv) as (pre & e & post & He).
        by exists es, pre, e, post.
      * by apply scan_entries_strings in Hget.
Qed.

(** The scan in terms of the entries of the target accession: the first of
    them decides. *)
Lemma scan_entries_filter es acc :
  forallb is_observation es = true ->
  scan_entries es acc =
    match filter (fun e => accession e = Some acc) es with
    | [] => Ok PNone
    | e :: _ => from_option Ok (Raise KeyError) (value e)
    end.
Proof.
  induction es as [|e es IH]; [done|].
  intros [He Hes]%andb_prop. rewrite scan_entries_observation by done.
  rewrite filter_cons. destruct (decide (accession e = Some acc)) as [Ha|Ha].
  - apply matches_accession in Ha. by rewrite Ha.
  - apply not_matches_accession in Ha. rewrite Ha. by apply IH.
Qed.

Lemma forallb_is_observation_Permutation (es1 es2 : list pyval) :
  es1 ≡ₚ es2 ->
  forallb is_observation es1 = true -> forallb is_observation es2 = true.
Proof.
  intros Hperm. rewrite !forallb_forall. intros H e He. apply H.
  by apply (Permutation_in _ (Permutation_sym Hperm)).
Qed.
End Lookup.

(** ** Report projection *)

Section Projection.
Implicit Types (facts item_data fd : pyval) (acc label key : string).
Implicit Types (items : list (string * string)).
Implicit Types (data row : list (string * list pyval)).

Lemma split_length sep s : length (split sep s) = S (count_char sep s).
Proof.
  induction s as [|a s IH]; [done|]. cbn.
  destruct (Ascii.eqb a sep); cbn; [by rewrite IH|].
  destruct (split sep s); [done|]. by rewrite <- IH.
Qed.

Lemma wf_item_key_split key :
  wf_item_key key = true -> exists t c, split ":" key = [t; c].
Proof.
  unfold wf_item_key. intros H%Nat.eqb_eq.
  pose proof (split_length ":" key) as Hlen. rewrite H in Hlen.
  destruct (split ":" key) as [|t [|c [|]]]; try discriminate. eauto.
Qed.

Lemma map_forallb_lookup {A} (f : A -> bool) (m : gmap string A) k v :
  map_forallb f m = true -> m !! k = Some v -> f v = true.
Proof.
  unfold map_forallb. rewrite forallb_forall. intros H Hk. apply H.
  apply list_elem_of_In, list_elem_of_fmap. exists (k, v).
  split; [done|]. by apply elem_of_map_to_list.
Qed.

Lemma wf_facts_concept_record facts t c item_data :
  wf_facts facts = true -> concept_record facts t c = Some item_data ->
  wf_item_data item_data = true.
Proof.
  unfold wf_facts, concept_record. dict_case facts ts.
  intros Hts. destruct (ts !! t) as [tx|] eqn:Ht; [|done].
  apply (map_forallb_lookup _ _ _ _ Hts) in Ht.
  dict_case tx cs. cbn in Ht.
  apply map_forallb_lookup, Ht.
Qed.

Lemma head_filter_Some {A} (P : A -> Prop) `{!forall x, Decision (P x)}
    (l : list A) (x : A) :
  head (filter P l) = Some x <->
  exists pre post, l = pre ++ x :: post /\ Forall (fun y => ~ P y) pre /\ P x.
Proof.
  split.
  - induction l as [|y l IH]; [done|]. rewrite filter_cons.
    destruct (decide (P y)) as [Hy|Hy]; cbn.
    + intros [= ->]. by exists [], l.
    + intros (pre & post & -> & Hpre & Hx)%IH.
      exists (y :: pre), post. by repeat constructor.
  - intros (pre & post & -> & Hpre & Hx).
    induction Hpre as [|y pre Hy _ IH].
    + by rewrite app_nil_l, filter_cons_True.
    + by rewrite <- app_comm_cons, filter_cons_False.
Qed.

Lemma first_match_Some es acc v :
  first_match es acc = Some v <->
  exists pre e post,
    es = pre ++ e :: post /\ Forall (fun x => accession x <> Some acc) pre /\
    accession e = Some acc /\ value e = Some v.
Proof.
  unfold first_match. split.
  - destruct (head _) as [e|] eqn:He; [|done]. cbn. intros Hv.
    apply head_filter_Some in He as (pre & post & ? & ? & ?).
    by exists pre, e, post.
  - intros (pre & e & post & Hes & Hpre & He & Hv).
    assert (head (filter (fun e => accession e = Some acc) es) = Some e)
      as -> by (apply head_filter_Some; eauto).
    done.
Qed.

Lemma wf_item_data_usd item_data es :
  wf_item_data item_data = true -> usd_sequence item_data = Some es ->
  forallb is_observation es = true.
Proof.
  unfold wf_item_data, usd_sequence. dict_case item_data d.
  destruct (d !! "units") as [[| | | | | |u]|]; try done.
  destruct (u !! "USD") as [[| | | | |l|]|]; try done. by intros ? [= ->].
Qed.

(** On a well-formed item the lookup does not raise, and returns what the
    data model says: a number, or [None] when it says nothing. *)
Lemma get_value_for_accession_wf item_data acc :
  wf_item_data item_data = true ->
  get_value_for_accession item_data acc =
    Ok (default PNone (item_value item_data acc)).
Proof.
  unfold wf_item_data, item_value. intros Hwf.
  dict_case item_data d.
  destruct (d !! "units") as [units|] eqn:Hd;
    [|by rewrite get_value_for_accession_no_units; cbn; rewrite ?Hd].
  dict_case units u.
  destruct (u !! "USD") as [usd|] eqn:Hu;
    [|by rewrite (get_value_for_accession_no_usd d u); cbn; rewrite ?Hd, ?Hu].
  destruct usd as [| | | | |es|]; try done.
  assert (Husd : usd_sequence (PDict d) = Some es) by (cbn; by rewrite Hd, Hu).
  rewrite Husd, (get_value_for_accession_usd _ _ _ Husd). cbn.
  rewrite scan_entries_filter by done. unfold first_match.
  destruct (filter _ es) as [|e l] eqn:Hf; [done|]. cbn.
  assert (e ∈ es) as He.
  { eapply (list_elem_of_filter (fun e => accession e = Some acc)).
    rewrite Hf. by left. }
  apply list_elem_of_In in He. rewrite forallb_forall in Hwf.
  apply Hwf, is_observation_value in He as (v & -> & _). done.
Qed.

Lemma item_value_number item_data acc v :
  wf_item_data item_data = true ->
  item_value item_data acc = Some v -> is_number v = true.
Proof.
  unfold wf_item_data, item_value, usd_sequence.
  dict_case item_data d.
  destruct (d !! "units") as [[| | | | | |u]|]; try done.
  destruct (u !! "USD") as [[| | | | |es|]|]; try done. cbn.
  intros Hobs (pre & e & post & -> & _ & _ & Hv)%first_match_Some.
  rewrite forallb_app in Hobs. apply andb_prop in Hobs as [_ Hobs].
  cbn in Hobs. apply andb_prop in Hobs as [Hobs _].
  apply is_observation_value in Hobs as (v' & Hv' & Hnum). congruence.
Qed.

(** One round of the loop on a well-formed repository. *)
Lemma process_item_wf facts acc data label key :
  wf_facts facts = true -> wf_item_key key = true ->
  process_item facts acc data label key =
    Ok (add_found facts acc data (label, key)).
Proof.
  intros Hwf (t & c & Hsplit)%wf_item_key_split.
  unfold process_item, add_found, found_value. cbn. rewrite Hsplit.
  destruct (concept_record facts t c) as [item_data|] eqn:Hrec.
  - pose proof (wf_facts_concept_record _ _ _ _ Hwf Hrec) as Hitem.
    unfold concept_record in Hrec.
    dict_case facts ts. cbn.
    destruct (ts !! t) as [[| | | | | |cs]|]; try done. cbn.
    rewrite Hrec. cbn. rewrite (get_value_for_accession_wf _ _ Hitem). cbn.
    destruct (item_value item_data acc) as [v|] eqn:Hv; [|done].
    apply item_value_number in Hv; [|done]. by destruct v.
  - unfold wf_facts, concept_record in *.
    dict_case facts ts. cbn.
    destruct (ts !! t) as [tx|] eqn:Ht; [|done].
    apply (map_forallb_lookup _ _ _ _ Hwf) in Ht.
    dict_case tx cs. cbn. by rewrite Hrec.
Qed.

Lemma process_items_wf facts items acc data :
  wf_facts facts = true -> wf_items items = true ->
  process_items facts items acc data =
    Ok (foldl (add_found facts acc) data items).
Proof.
  intros Hwf. revert data.
  induction items as [|[label key] items IH]; [done|].
  intros data [Hkey Hitems]%andb_prop. cbn.
  rewrite process_item_wf by done. cbn. by apply IH.
Qed.
End Projection.

(** ** Insertion-ordered dicts *)

Section Dict.
Context {V : Type}.
Implicit Types (d : list (string * V)) (k : string) (v : V).

Lemma dict_set_keys d k v :
  (dict_set d k v).*1 = if decide (k ∈ d.*1) then d.*1 else d.*1 ++ [k].
Proof.
  induction d as [|[k0 v0] d IH]; cbn.
  - by rewrite decide_False by apply not_elem_of_nil.
  - destruct (String.eqb k0 k) eqn:Heq.
    + apply String.eqb_eq in Heq as ->. cbn.
      by rewrite decide_True by left.
    + apply String.eqb_neq in Heq. cbn. rewrite IH.
      destruct (decide (k ∈ d.*1)) as [Hin|Hin].
      * by rewrite decide_True by by right.
      * rewrite decide_False; [done|].
        intros [?|?]%elem_of_cons; congruence.
Qed.

Lemma dict_set_NoDup d k v : NoDup d.*1 -> NoDup (dict_set d k v).*1.
Proof.
  intros Hd. rewrite dict_set_keys. case_decide; [done|].
  apply NoDup_app. split; [done|]. split; [|apply NoDup_singleton].
  by intros x Hx ->%list_elem_of_singleton.
Qed.

Lemma elem_of_dict_set d k v k' v' :
  (k', v') ∈ dict_set d k v -> (k', v') ∈ d \/ (k' = k /\ v' = v).
Proof.
  induction d as [|[k0 v0] d IH]; cbn.
  - intros [= -> ->]%list_elem_of_singleton. by right.
  - destruct (String.eqb k0 k) eqn:Heq.
    + apply String.eqb_eq in Heq as ->.
      intros [[= -> ->]|Hin]%elem_of_cons; [by right|left; by right].
    + intros [->|Hin]%elem_of_cons; [left; by left|].
      destruct (IH Hin) as [?|?]; [left; by right|by right].
Qed.

Lemma dict_get_None d k : k ∉ d.*1 -> dict_get d k = None.
Proof.
  induction d as [|[k0 v0] d IH]; [done|]. cbn.
  intros Hk. destruct (String.eqb k0 k) eqn:Heq.
  - apply String.eqb_eq in Heq as ->. destruct Hk. by left.
  - apply IH. intros Hin. apply Hk. by right.
Qed.
End Dict.

Section Rows.
Implicit Types (facts item_data fd : pyval) (acc label key : string).
Implicit Types (items : list (string * string)).
Implicit Types (data row : list (string * list pyval)).

(** Every column of the table was there at the start or comes from a key
    of the definition for which a value was found. *)
Lemma foldl_add_found_entries facts acc items data label vs :
  (label, vs) ∈ foldl (add_found facts acc) data items ->
  (label, vs) ∈ data \/
  exists key v, (label, key) ∈ items /\
                found_value facts key acc = Some v /\ vs = [v].
Proof.
  revert data. induction items as [|[l k] items IH]; cbn; [by left|].
  intros data [Hin|(key & v & Hin & Hv)]%IH.
  - unfold add_found in Hin. cbn in Hin.
    destruct (found_value facts k acc) as [v|] eqn:Hv; [|by left].
    apply elem_of_dict_set in Hin as [?|[-> ->]]; [by left|].
    right. exists k, v. split; [by left|done].
  - right. exists key, v. split; [by right|done].
Qed.

Lemma foldl_add_found_nothing facts acc items data :
  (forall label key, (label, key) ∈ items -> found_value facts key acc = None) ->
  foldl (add_found facts acc) data items = data.
Proof.
  induction items as [|[l k] items IH]; cbn; [done|].
  intros Hnone. unfold add_found at 2. cbn.
  rewrite (Hnone l k) by left. apply IH.
  intros label key Hin. apply (Hnone label key). by right.
Qed.

(** A lookup that returns [None] on a well-formed item means that the
    data model has no value for it. *)
Lemma item_value_None item_data acc :
  wf_item_data item_data = true ->
  get_value_for_accession item_data acc = Ok PNone ->
  item_value item_data acc = None.
Proof.
  intros Hwf. rewrite get_value_for_accession_wf by done.
  destruct (item_value item_data acc) as [v|] eqn:Hv; [|done].
  apply item_value_number in Hv; [|done]. cbn. by intros [= ->].
Qed.

Lemma found_value_Some facts key acc v :
  found_value facts key acc = Some v ->
  exists t c item_data es,
    split ":" key = [t; c] /\ concept_record facts t c = Some item_data /\
    usd_sequence item_data = Some es /\ first_match es acc = Some v.
Proof.
  unfold found_value, item_value.
  destruct (split ":" key) as [|t [|c [|]]]; try done.
  destruct (concept_record facts t c) as [item_data|] eqn:Hrec; [|done]. cbn.
  destruct (usd_sequence item_data) as [es|] eqn:Husd; [|done]. cbn.
  intros Hv. by exists t, c, item_data, es.
Qed.
End Rows.

Section Reports.
Implicit Types (facts item_data fd : pyval) (acc label key : string).
Implicit Types (items : list (string * string)).
Implicit Types (data row : list (string * list pyval)).

Lemma found_value_split facts key acc t c :
  split ":" key = [t; c] ->
  found_value facts key acc =
    item_data ← concept_record facts t c; item_value item_data acc.
Proof. unfold found_value. by intros ->. Qed.

(** [taxonomy in facts_data and concept in facts_data[taxonomy]] being
    false leaves no record for the concept. *)
Lemma concept_record_absent facts t c :
  py_contains t facts = Ok false \/
  (exists concepts, py_getitem facts t = Ok concepts /\
                    py_contains c concepts = Ok false) ->
  concept_record facts t c = None.
Proof.
  unfold concept_record. dict_case facts ts. cbn.
  intros [Ht|(concepts & Ht & Hc)].
  - by destruct (ts !! t).
  - destruct (ts !! t) as [tx|]; [|done]. injection Ht as ->.
    dict_case concepts cs. cbn in Hc.
    by destruct (cs !! c).
Qed.

Lemma found_value_not_found facts key acc t c :
  wf_facts facts = true -> split ":" key = [t; c] ->
  (forall item_data, concept_record facts t c = Some item_data ->
                     get_value_for_accession item_data acc = Ok PNone) ->
  found_value facts key acc = None.
Proof.
  intros Hwf Hsplit Hnone. rewrite (found_value_split _ _ _ _ _ Hsplit).
  destruct (concept_record facts t c) as [item_data|] eqn:Hrec; [|done]. cbn.
  apply item_value_None; [|by apply Hnone].
  by apply (wf_facts_concept_record facts t c).
Qed.

Lemma NoDup_fst_functional {A B} (l : list (A * B)) x y1 y2 :
  NoDup l.*1 -> (x, y1) ∈ l -> (x, y2) ∈ l -> y1 = y2.
Proof.
  induction l as [|[a b] l IH]; cbn; [by intros _ ?%not_elem_of_nil|].
  intros [Ha Hl]%NoDup_cons [H1|H1]%elem_of_cons [H2|H2]%elem_of_cons.
  - congruence.
  - injection H1 as -> ->. destruct Ha.
    apply list_elem_of_fmap. by exists (a, y2).
  - injection H2 as -> ->. destruct Ha.
    apply list_elem_of_fmap. by exists (a, y1).
  - by apply IH.
Qed.

Lemma process_financial_statement_wf facts items fd acc :
  wf_facts facts = true -> wf_items items = true ->
  process_financial_statement facts items fd acc =
    Ok (foldl (add_found facts acc) [] items).
Proof.
  intros Hfacts Hitems. unfold process_financial_statement.
  by rewrite process_items_wf.
Qed.
End Reports.

(** ** What a returned row holds, whatever the shape of the repository *)

Section Soundness.
Implicit Types (facts item_data fd : pyval) (acc label key : string).
Implicit Types (items : list (string * string)).
Implicit Types (data row : list (string * list pyval)).

(** A round of the loop that does not raise leaves [data] alone or sets
    the label to the value found for its concept. *)
Lemma process_item_sound facts acc data label key data' :
  process_item facts acc data label key = Ok data' ->
  data' = data \/
  exists t c item_data v,
    split ":" key = [t; c] /\ concept_record facts t c = Some item_data /\
    get_value_for_accession item_data acc = Ok v /\ v <> PNone /\
    data' = dict_set data label [v].
Proof.
  unfold process_item.
  destruct (split ":" key) as [|t [|c [|]]]; try discriminate. intros H.
  destruct facts as [| | | |s|l|ts]; cbn in H; try discriminate.
  - destruct (str_contains t s); cbn in H; [discriminate|].
    left. by injection H.
  - destruct (existsb _ l); cbn in H; [discriminate|].
    left. by injection H.
  - destruct (ts !! t) as [tx|] eqn:Ht; cbn in H; [|left; by injection H].
    destruct tx as [| | | |s|l|cs]; cbn in H; try discriminate.
    + destruct (str_contains c s); cbn in H; [discriminate|].
      left. by injection H.
    + destruct (existsb _ l); cbn in H; [discriminate|].
      left. by injection H.
    + destruct (cs !! c) as [item_data|] eqn:Hc; cbn in H;
        [|left; by injection H].
      destruct (get_value_for_accession item_data acc) as [v|e] eqn:Hv;
        cbn in H; [|discriminate].
      assert (Hrec : concept_record (PDict ts) t c = Some item_data)
        by (cbn; by rewrite Ht).
      destruct v; injection H as <-; try (by left);
        right; exists t, c, item_data; eexists; by repeat split.
Qed.

Lemma process_items_sound facts items acc data row :
  process_items facts items acc data = Ok row ->
  (NoDup data.*1 -> NoDup row.*1) /\
  (forall label vs,
      (label, vs) ∈ row ->
      (label, vs) ∈ data \/
      exists key t c item_data v,
        (label, key) ∈ items /\ split ":" key = [t; c] /\
        concept_record facts t c = Some item_data /\
        get_value_for_accession item_data acc = Ok v /\ v <> PNone /\
        vs = [v]).
Proof.
  revert data. induction items as [|[l k] items IH]; cbn; intros data.
  - intros [= <-]. split; [done|]. by left.
  - destruct (process_item facts acc data l k) as [data'|e] eqn:Hstep;
      [|discriminate]. cbn.
    intros [Hnodup Hrow]%IH.
    apply process_item_sound in Hstep
      as [->|(t & c & item_data & v & Hsplit & Hrec & Hv & Hne & ->)].
    + split; [done|]. intros label vs [?|Hin]%Hrow; [by left|].
      destruct Hin as (key & t & c & item_data & v & Hin & Hrest).
      right. exists key, t, c, item_data, v. split; [by right|done].
    + split; [intros Hd; by apply Hnodup, dict_set_NoDup|].
      intros label vs [Hin|Hin]%Hrow.
      * apply elem_of_dict_set in Hin as [?|[-> ->]]; [by left|].
        right. exists k, t, c, item_data, v. split; [by left|done].
      * destruct Hin as (key & t' & c' & item_data' & v' & Hin & Hrest).
        right. exists key, t', c', item_data', v'. split; [by right|done].
Qed.

Lemma process_financial_statement_sound facts items fd acc row :
  process_financial_statement facts items fd acc = Ok row ->
  NoDup row.*1 /\
  (forall label vs,
      (label, vs) ∈ row ->
      exists key t c item_data v,
        (label, key) ∈ items /\ split ":" key = [t; c] /\
        concept_record facts t c = Some item_data /\
        get_value_for_accession item_data acc = Ok v /\ v <> PNone /\
        vs = [v]).
Proof.
  unfold process_financial_statement.
  destruct (process_items facts items acc []) as [data|e] eqn:Hitems;
    [|discriminate]. cbn. intros [= <-].
  apply process_items_sound in Hitems as [Hnodup Hrow].
  split; [apply Hnodup; constructor|].
  intros label vs [?%not_elem_of_nil|?]%Hrow; done.
Qed.
End Soundness.

(** ** The tests of the repository

    [tests/test_EDGAR_SEC.py], run on the embedding. *)

Example test_get_value_for_accession :
  let item_data := usd_item [ observation "0000320193-23-000001" 1000;
                              observation "0000320193-22-000001" 900 ] in
  get_value_for_accession item_data "0000320193-23-000001" = Ok (PInt 1000) /\
  get_value_for_accession item_data "INVALID" = Ok PNone.
Proof. split; reflexivity. Qed.

Example test_process_financial_statement :
  let facts_data := PDict {[ "us-gaap" := PDict {[
        "Revenue" := usd_item [observation "0000320193-23-000001" 1000];
        "NetIncome" := usd_item [observation "0000320193-23-000001" 200] ]} ]} in
  let items := [("Revenue", "us-gaap:Revenue"); ("Net Income", "us-gaap:NetIncome")] in
  process_financial_statement facts_data items (PStr "2023-01-01")
    "0000320193-23-000001"
  = Ok (pd_DataFrame [("Revenue", [PInt 1000]); ("Net Income", [PInt 200])]).
Proof. reflexivity. Qed.

Example test_process_income_statement :
  let facts_data := PDict {[ "us-gaap" := PDict {[
        "Revenues" := usd_item [observation "0000320193-23-000001" 1000];
        "NetIncomeLoss" := usd_item [observation "0000320193-23-000001" 200] ]} ]} in
  process_income_statement facts_data (PStr "2023-01-01") "0000320193-23-000001"
  = Ok (pd_DataFrame [("Revenue", [PInt 1000]); ("Net Income", [PInt 200])]).
Proof. reflexivity. Qed.

Example test_process_cash_flow_statement :
  let facts_data := PDict {[ "us-gaap" := PDict {[
        "NetCashProvidedByUsedInOperatingActivities" :=
          usd_item [observation "0000320193-23-000001" 500];
        "NetIncreaseDecreaseInCash" :=
          usd_item [observation "0000320193-23-000001" 100] ]} ]} in
  process_cash_flow_statement facts_data (PStr "2023-01-01") "0000320193-23-000001"
  = Ok (pd_DataFrame [ ("Cash from Operating Activities", [PInt 500]);
                       ("Net Change in Cash", [PInt 100]) ]).
Proof. reflexivity. Qed.

Example test_process_balance_sheet :
  let facts_data := PDict {[ "us-gaap" := PDict {[
        "Assets" := usd_item [observation "0000320193-23-000001" 2000];
        "Liabilities" := usd_item [observation "0000320193-23-000001" 1000] ]} ]} in
  process_balance_sheet facts_data (PStr "2023-01-01") "0000320193-23-000001"
  = Ok (pd_DataFrame [("Total Assets", [PInt 2000]); ("Total Liabilities", [PInt 1000])]).
Proof. reflexivity. Qed.

(** Outside the data model the code does raise: a key without a colon
    cannot be unpacked, an entry without ["accn"] has no such key, and an
    entry that is not a dict cannot be subscripted. *)
Example key_without_colon_raises :
  process_financial_statement example_facts [("Revenue", "Revenues")] PNone "X1"
  = Raise ValueError.
Proof. reflexivity. Qed.

Example entry_without_accn_raises :
  get_value_for_accession (usd_item [PDict ∅]) "X1" = Raise KeyError.
Proof. reflexivity. Qed.

Example entry_not_a_dict_raises :
  get_value_for_accession (usd_item [PInt 3]) "X1" = Raise TypeError.
Proof. reflexivity. Qed.

(** * The claims *)

(** C1.  On a well-formed item the lookup returns the value of the first
    Observation of the USD sequence whose accession is the target (the ones
    before it having another accession), and [None] when no Observation of
    a USD sequence has the target accession.  On the sequence
    [{accn:A,val:10},{accn:B,val:20}] it returns 10 for A, 20 for B and
    [None] for any other accession. *)
Theorem get_value_for_accession_first_match
    (item_data : pyval) (acc : string) :
  wf_item_data item_data = true ->
  (forall es pre e post v,
      usd_sequence item_data = Some es ->
      es = pre ++ e :: post ->
      Forall (fun x => accession x <> Some acc) pre ->
      accession e = Some acc -> value e = Some v ->
      get_value_for_accession item_data acc = Ok v) /\
  ((forall es e,
       usd_sequence item_data = Some es -> e ∈ es -> accession e <> Some acc) ->
   get_value_for_accession item_data acc = Ok PNone) /\
  (forall oA oB,
      usd_sequence item_data = Some [oA; oB] ->
      accession oA = Some "A" -> value oA = Some (PInt 10) ->
      accession oB = Some "B" -> value oB = Some (PInt 20) ->
      (acc = "A" -> get_value_for_accession item_data acc = Ok (PInt 10)) /\
      (acc = "B" -> get_value_for_accession item_data acc = Ok (PInt 20)) /\
      (acc <> "A" -> acc <> "B" ->
         get_value_for_accession item_data acc = Ok PNone)).
Proof.
  intros Hwf.
  assert (Hfirst : forall es pre e post v,
             usd_sequence item_data = Some es ->
             es = pre ++ e :: post ->
             Forall (fun x => accession x <> Some acc) pre ->
             accession e = Some acc -> value e = Some v ->
             get_value_for_accession item_data acc = Ok v).
  { intros es pre e post v Husd -> Hpre He Hv.
    pose proof (wf_item_data_usd _ _ Hwf Husd) as Hobs.
    rewrite forallb_app in Hobs. apply andb_prop in Hobs as [Hobs _].
    rewrite (get_value_for_accession_usd _ _ _ Husd).
    rewrite scan_entries_skip by done. by apply scan_entries_hit. }
  assert (Hmiss :
            (forall es e, usd_sequence item_data = Some es -> e ∈ es ->
                          accession e <> Some acc) ->
            get_value_for_accession item_data acc = Ok PNone).
  { intros Hnone. rewrite get_value_for_accession_wf by done.
    unfold item_value. destruct (usd_sequence item_data) as [es|]; [|done].
    cbn. destruct (first_match es acc) as [v|] eqn:Hv; [|done].
    apply first_match_Some in Hv as (pre & e & post & -> & _ & He & _).
    destruct (Hnone (pre ++ e :: post) e); [done| |done].
    apply elem_of_app. right. by left. }
  split; [done|]. split; [done|].
  intros oA oB Husd HaA HvA HaB HvB. repeat split.
  - intros ->. by apply (Hfirst [oA; oB] [] oA [oB]).
  - intros ->. apply (Hfirst [oA; oB] [oA] oB []); [done..| |done|done].
    constructor; [|done]. rewrite HaA. by intros [=].
  - intros HnA HnB. apply Hmiss. intros es e Hes He.
    rewrite Husd in Hes. injection Hes as <-.
    apply elem_of_cons in He as [->|He%list_elem_of_singleton]; congruence.
Qed.

Lemma get_value_for_accession_first_match_witness :
  get_value_for_accession
    (usd_item [observation "A" 10; observation "B" 20]) "B" = Ok (PInt 20).
Proof.
  destruct (get_value_for_accession_first_match
              (usd_item [observation "A" 10; observation "B" 20]) "B" eq_refl)
    as (_ & _ & H).
  destruct (H (observation "A" 10) (observation "B" 20)
              eq_refl eq_refl eq_refl eq_refl eq_refl) as (_ & HB & _).
  exact (HB eq_refl).
Defined.

(** On a well-formed item no entry of which has the target accession the
    lookup returns [None]. *)
Lemma get_value_for_accession_no_entry (item_data : pyval) (acc : string) :
  wf_item_data item_data = true ->
  (forall es e, usd_sequence item_data = Some es -> e ∈ es ->
                accession e <> Some acc) ->
  get_value_for_accession item_data acc = Ok PNone.
Proof.
  intros Hwf Hnone. rewrite get_value_for_accession_wf by done.
  unfold item_value. destruct (usd_sequence item_data) as [es|]; [|done].
  cbn. destruct (first_match es acc) as [v|] eqn:Hv; [|done].
  apply first_match_Some in Hv as (pre & e & post & -> & _ & He & _).
  destruct (Hnone (pre ++ e :: post) e); [done| |done].
  apply elem_of_app. right. by left.
Qed.

(** C2.  A label whose taxonomy or concept is not in the repository, or
    whose lookup returns [None] for the target accession (as it does when
    no Observation of the concept has that accession), is not a key of
    the resulting row: of any row the projection returns, and of the row it
    does return on a well-formed repository.  (Labels are the keys of a
    dict, hence distinct.)  Projecting [{X: ns:a, Y: ns:b}] on a repository
    whose concept [a] has USD Observations, the first one of the target
    accession holding [value], and that has no concept [b], yields exactly
    [{X: value}]. *)
Theorem process_financial_statement_omission :
  (forall (facts fd : pyval) (items : list (string * string))
          (acc label key t c : string) (row : DataFrame),
      NoDup items.*1 -> (label, key) ∈ items -> split ":" key = [t; c] ->
      (py_contains t facts = Ok false \/
       (exists concepts, py_getitem facts t = Ok concepts /\
                         py_contains c concepts = Ok false) \/
       (exists item_data, concept_record facts t c = Some item_data /\
                          get_value_for_accession item_data acc = Ok PNone) \/
       (exists item_data, concept_record facts t c = Some item_data /\
                          wf_item_data item_data = true /\
                          forall es e, usd_sequence item_data = Some es -> e ∈ es ->
                                      accession e <> Some acc)) ->
      process_financial_statement facts items fd acc = Ok row ->
      dict_get row label = None) /\
  (forall (facts fd : pyval) (items : list (string * string))
          (acc label key t c : string),
      wf_facts facts = true -> wf_items items = true -> NoDup items.*1 ->
      (label, key) ∈ items -> split ":" key = [t; c] ->
      (py_contains t facts = Ok false \/
       (exists concepts, py_getitem facts t = Ok concepts /\
                         py_contains c concepts = Ok false) \/
       (exists item_data, concept_record facts t c = Some item_data /\
                          get_value_for_accession item_data acc = Ok PNone) \/
       (exists item_data, concept_record facts t c = Some item_data /\
                          wf_item_data item_data = true /\
                          forall es e, usd_sequence item_data = Some es -> e ∈ es ->
                                      accession e <> Some acc)) ->
      exists row, process_financial_statement facts items fd acc = Ok row /\
                  dict_get row label = None) /\
  (forall (facts fd item_data : pyval) (pre : list pyval) (e : pyval)
          (post : list pyval) (v : pyval) (acc : string),
      concept_record facts "ns" "a" = Some item_data ->
      usd_sequence item_data = Some (pre ++ e :: post) ->
      forallb is_observation (pre ++ e :: post) = true ->
      Forall (fun x => accession x <> Some acc) pre ->
      accession e = Some acc -> value e = Some v ->
      concept_record facts "ns" "b" = None ->
      process_financial_statement facts [("X", "ns:a"); ("Y", "ns:b")] fd acc
        = Ok [("X", [v])]).
Proof.
  assert (Hany : forall (facts fd : pyval) (items : list (string * string))
                        (acc label key t c : string) (row : DataFrame),
             NoDup items.*1 -> (label, key) ∈ items -> split ":" key = [t; c] ->
             (py_contains t facts = Ok false \/
              (exists concepts, py_getitem facts t = Ok concepts /\
                                py_contains c concepts = Ok false) \/
              (exists item_data, concept_record facts t c = Some item_data /\
                                 get_value_for_accession item_data acc = Ok PNone) \/
              (exists item_data, concept_record facts t c = Some item_data /\
                                 wf_item_data item_data = true /\
                                 forall es e, usd_sequence item_data = Some es -> e ∈ es ->
                                             accession e <> Some acc)) ->
             process_financial_statement facts items fd acc = Ok row ->
             dict_get row label = None).
  { intros facts fd items acc label key t c row Hnodup Hin Hsplit Hcase Hrow.
    apply process_financial_statement_sound in Hrow as [_ Hrow].
    apply dict_get_None.
    intros (entry & -> & Hentry)%list_elem_of_fmap. destruct entry as [l vs].
    apply Hrow in Hentry
      as (key' & t' & c' & item_data & v & Hin' & Hsplit' & Hrec & Hv & Hne & _).
    cbn in Hin'. rewrite (NoDup_fst_functional _ _ _ _ Hnodup Hin' Hin) in Hsplit'.
    rewrite Hsplit in Hsplit'. injection Hsplit' as <- <-.
    destruct Hcase as [Hc|[Hc|[(item_data' & Hrec' & Hnone)
                               |(item_data' & Hrec' & Hwf & Hnone)]]].
    - rewrite concept_record_absent in Hrec; [done|by left].
    - rewrite concept_record_absent in Hrec; [done|by right].
    - congruence.
    - pose proof (get_value_for_accession_no_entry _ _ Hwf Hnone). congruence. }
  split; [exact Hany|]. split.
  - intros facts fd items acc label key t c Hfacts Hitems Hnodup Hin Hsplit Hcase.
    destruct (process_financial_statement facts items fd acc) as [row|e] eqn:Hrow.
    + exists row. split; [done|]. by apply (Hany facts fd items acc label key t c).
    + by rewrite process_financial_statement_wf in Hrow.
  - intros facts fd item_data pre e post v acc Ha Husd Hobs Hpre He Hval Hb.
    assert (Hv : get_value_for_accession item_data acc = Ok v).
    { rewrite (get_value_for_accession_usd _ _ _ Husd).
      rewrite forallb_app in Hobs. apply andb_prop in Hobs as [Hobs _].
      rewrite scan_entries_skip by done. by apply scan_entries_hit. }
    assert (Hne : is_number v = true).
    { rewrite forallb_app in Hobs. apply andb_prop in Hobs as [_ Hobs].
      cbn in Hobs. apply andb_prop in Hobs as [Hobs _].
      apply is_observation_value in Hobs as (v' & Hv' & Hnum). congruence. }
    unfold concept_record in Ha, Hb.
    dict_case facts ts.
    destruct (ts !! "ns") as [[| | | | | |cs]|] eqn:Hns; try done.
    unfold process_financial_statement. cbn. rewrite Hns. cbn.
    rewrite Ha, Hb. cbn. rewrite Hv. cbn. by destruct v.
Qed.

Lemma process_financial_statement_omission_witness :
  process_financial_statement
    (PDict {[ "ns" := PDict {[ "a" :=
       usd_item [observation "S" 3; observation "T" 5; observation "T" 6] ]} ]})
    [("X", "ns:a"); ("Y", "ns:b")] PNone "T" = Ok [("X", [PInt 5])] /\
  dict_get [("X", [PInt 5])] "Y" = None /\
  exists row,
    process_financial_statement
      (PDict {[ "ns" := PDict {[ "a" :=
         usd_item [observation "S" 3; observation "T" 5; observation "T" 6] ]} ]})
      [("X", "ns:a"); ("Y", "ns:b")] PNone "T" = Ok row /\
    dict_get row "Y" = None.
Proof.
  assert (Hitems : NoDup [("X", "ns:a"); ("Y", "ns:b")].*1)
    by (apply (bool_decide_unpack _); vm_compute; exact I).
  assert (Hin : ("Y", "ns:b") ∈ [("X", "ns:a"); ("Y", "ns:b")])
    by (apply (bool_decide_unpack _); vm_compute; exact I).
  assert (Hcase :
    py_contains "ns"
      (PDict {[ "ns" := PDict {[ "a" :=
         usd_item [observation "S" 3; observation "T" 5; observation "T" 6] ]} ]})
      = Ok false \/
    (exists concepts,
        py_getitem
          (PDict {[ "ns" := PDict {[ "a" :=
             usd_item [observation "S" 3; observation "T" 5; observation "T" 6] ]} ]})
          "ns" = Ok concepts /\
        py_contains "b" concepts = Ok false) \/
    (exists item_data,
        concept_record
          (PDict {[ "ns" := PDict {[ "a" :=
             usd_item [observation "S" 3; observation "T" 5; observation "T" 6] ]} ]})
          "ns" "b" = Some item_data /\
        get_value_for_accession item_data "T" = Ok PNone) \/
    (exists item_data,
        concept_record
          (PDict {[ "ns" := PDict {[ "a" :=
             usd_item [observation "S" 3; observation "T" 5; observation "T" 6] ]} ]})
          "ns" "b" = Some item_data /\
        wf_item_data item_data = true /\
        forall es e, usd_sequence item_data = Some es -> e ∈ es ->
                     accession e <> Some "T")).
  { right. left.
    exists (PDict {[ "a" :=
      usd_item [observation "S" 3; observation "T" 5; observation "T" 6] ]}).
    split; reflexivity. }
  assert (Hrow :
    process_financial_statement
      (PDict {[ "ns" := PDict {[ "a" :=
         usd_item [observation "S" 3; observation "T" 5; observation "T" 6] ]} ]})
      [("X", "ns:a"); ("Y", "ns:b")] PNone "T" = Ok [("X", [PInt 5])]).
  { apply (proj2 (proj2 process_financial_statement_omission)
             (PDict {[ "ns" := PDict {[ "a" :=
                usd_item [observation "S" 3; observation "T" 5; observation "T" 6] ]} ]})
             PNone
             (usd_item [observation "S" 3; observation "T" 5; observation "T" 6])
             [observation "S" 3] (observation "T" 5) [observation "T" 6]
             (PInt 5) "T").
    - reflexivity.
    - reflexivity.
    - reflexivity.
    - constructor; [discriminate|constructor].
    - reflexivity.
    - reflexivity.
    - reflexivity. }
  split; [exact Hrow|]. split.
  - exact (proj1 process_financial_statement_omission
             (PDict {[ "ns" := PDict {[ "a" :=
                usd_item [observation "S" 3; observation "T" 5; observation "T" 6] ]} ]})
             PNone [("X", "ns:a"); ("Y", "ns:b")] "T" "Y" "ns:b" "ns" "b"
             [("X", [PInt 5])] Hitems Hin eq_refl Hcase Hrow).
  - exact (proj1 (proj2 process_financial_statement_omission)
             (PDict {[ "ns" := PDict {[ "a" :=
                usd_item [observation "S" 3; observation "T" 5; observation "T" 6] ]} ]})
             PNone [("X", "ns:a"); ("Y", "ns:b")] "T" "Y" "ns:b" "ns" "b"
             eq_refl eq_refl Hitems Hin eq_refl Hcase).
Defined.

(** C3.  A value returned by the lookup is the value of an entry of the USD
    sequence whose accession is the target, whatever the shape of the item;
    so projecting a repository whose Observations all carry one accession
    for another accession yields the empty row, as on the repository
    [{ns: {Revenues: [X1: 1000], NetIncomeLoss: [X1: 200]}}] for X2. *)
Theorem get_value_for_accession_isolation :
  (forall (item_data v : pyval) (acc : string),
      get_value_for_accession item_data acc = Ok v -> v <> PNone ->
      exists es e, usd_sequence item_data = Some es /\ e ∈ es /\
                   accession e = Some acc /\ value e = Some v) /\
  (forall (facts fd : pyval) (items : list (string * string)) (a1 a2 : string),
      wf_facts facts = true -> wf_items items = true -> a1 <> a2 ->
      (forall t c item_data es e,
          concept_record facts t c = Some item_data ->
          usd_sequence item_data = Some es -> e ∈ es ->
          accession e = Some a1) ->
      process_financial_statement facts items fd a2 = Ok []) /\
  (forall fd : pyval,
      process_financial_statement example_facts example_items fd "X2" = Ok [] /\
      process_financial_statement bare_example_facts example_items fd "X2" = Ok []).
Proof.
  split; [|split; [|done]].
  { intros item_data v acc Hget Hv.
    apply get_value_for_accession_sound in Hget
      as (es & pre & e & post & Husd & -> & _ & He & Hval); [|done].
    exists (pre ++ e :: post), e. split; [done|]. split; [|done].
    apply elem_of_app. right. by left. }
  intros facts fd items a1 a2 Hfacts Hitems Hne Hall.
  rewrite process_financial_statement_wf by done. f_equal.
  apply foldl_add_found_nothing. intros label key Hin.
  destruct (found_value facts key a2) as [v|] eqn:Hv; [|done].
  apply found_value_Some in Hv as (t & c & item_data & es & _ & Hrec & Husd & Hv).
  apply first_match_Some in Hv as (pre & e & post & -> & _ & He & _).
  assert (accession e = Some a1) as He'.
  { apply (Hall t c item_data (pre ++ e :: post)); [done..|].
    apply elem_of_app. right. by left. }
  congruence.
Qed.

Lemma get_value_for_accession_isolation_witness :
  (exists es e,
      usd_sequence (usd_item [observation "X1" 1000; observation "X2" 7]) = Some es /\
      e ∈ es /\ accession e = Some "X2" /\ value e = Some (PInt 7)) /\
  process_financial_statement example_facts example_items PNone "X2" = Ok [].
Proof.
  split.
  - apply (proj1 get_value_for_accession_isolation
             (usd_item [observation "X1" 1000; observation "X2" 7])
             (PInt 7) "X2"); [reflexivity|discriminate].
  - apply (proj1 (proj2 get_value_for_accession_isolation)
             example_facts PNone example_items "X1" "X2");
      [reflexivity|reflexivity|discriminate|].
    intros t c item_data es e Hrec Husd He.
    unfold concept_record, example_facts in Hrec.
    destruct (decide (t = "ns")) as [->|Ht];
      [|by rewrite lookup_singleton_ne in Hrec].
    rewrite lookup_singleton_eq in Hrec.
    apply lookup_insert_Some in Hrec as [[_ <-]|[_ Hrec]].
    + injection Husd as <-. by apply list_elem_of_singleton in He as ->.
    + apply lookup_singleton_Some in Hrec as [_ <-].
      injection Husd as <-. by apply list_elem_of_singleton in He as ->.
Defined.

(** C4.  On a well-formed repository and report definition the projection
    returns a row and raises nothing; when no key of the definition has a
    value for the target accession the row is empty. *)
Theorem process_financial_statement_total
    (facts fd : pyval) (items : list (string * string)) (acc : string) :
  wf_facts facts = true -> wf_items items = true ->
  (exists row, process_financial_statement facts items fd acc = Ok row) /\
  (forall e, process_financial_statement facts items fd acc <> Raise e) /\
  ((forall label key t c item_data,
       (label, key) ∈ items -> split ":" key = [t; c] ->
       concept_record facts t c = Some item_data ->
       get_value_for_accession item_data acc = Ok PNone) ->
   process_financial_statement facts items fd acc = Ok []).
Proof.
  intros Hfacts Hitems. rewrite process_financial_statement_wf by done.
  split; [by eexists|]. split; [done|].
  intros Hnone. f_equal. apply foldl_add_found_nothing. intros label key Hin.
  assert (wf_item_key key = true) as (t & c & Hsplit)%wf_item_key_split.
  { unfold wf_items in Hitems. rewrite forallb_forall in Hitems.
    by apply (Hitems (label, key)), list_elem_of_In. }
  apply (found_value_not_found facts key acc t c); [done..|].
  intros item_data. by apply (Hnone label key).
Qed.

Lemma process_financial_statement_total_witness :
  (exists row,
      process_financial_statement example_facts example_items PNone "X2" = Ok row) /\
  process_financial_statement example_facts example_items PNone "X2" = Ok [].
Proof.
  destruct (process_financial_statement_total
              example_facts PNone example_items "X2" eq_refl eq_refl)
    as (Hrow & _ & Hempty).
  split; [exact Hrow|]. apply Hempty.
  intros label key t c item_data Hin Hsplit Hrec.
  apply elem_of_cons in Hin as [Hin|Hin%list_elem_of_singleton];
    injection Hin as -> ->; injection Hsplit as <- <-;
    vm_compute in Hrec; injection Hrec as <-; reflexivity.
Defined.

(** C5.  Any row the projection returns has only labels of the report
    definition, no label twice, and under each label the single value of
    the first Observation of the target accession in the USD sequence of
    the concept that a key of this label names.  On a well-formed
    repository a row is returned and its values are numbers. *)
Theorem process_financial_statement_row
    (facts fd : pyval) (items : list (string * string)) (acc : string) :
  (forall row,
      process_financial_statement facts items fd acc = Ok row ->
      (forall label, label ∈ row.*1 -> label ∈ items.*1) /\
      NoDup row.*1 /\
      (forall label vs,
          (label, vs) ∈ row ->
          exists key t c item_data es pre e post v,
            (label, key) ∈ items /\ split ":" key = [t; c] /\
            concept_record facts t c = Some item_data /\
            usd_sequence item_data = Some es /\
            es = pre ++ e :: post /\
            Forall (fun x => accession x <> Some acc) pre /\
            accession e = Some acc /\ value e = Some v /\
            v <> PNone /\ vs = [v])) /\
  (wf_facts facts = true -> wf_items items = true ->
   exists row,
     process_financial_statement facts items fd acc = Ok row /\
     (forall label vs,
         (label, vs) ∈ row -> exists v, vs = [v] /\ is_number v = true)).
Proof.
  split.
  - intros row [Hnodup Hrow]%process_financial_statement_sound.
    assert (Hfull : forall label vs,
               (label, vs) ∈ row ->
               exists key t c item_data es pre e post v,
                 (label, key) ∈ items /\ split ":" key = [t; c] /\
                 concept_record facts t c = Some item_data /\
                 usd_sequence item_data = Some es /\
                 es = pre ++ e :: post /\
                 Forall (fun x => accession x <> Some acc) pre /\
                 accession e = Some acc /\ value e = Some v /\
                 v <> PNone /\ vs = [v]).
    { intros label vs (key & t & c & item_data & v & Hin & Hsplit & Hrec & Hv
                       & Hne & ->)%Hrow.
      apply get_value_for_accession_sound in Hv
        as (es & pre & e & post & Husd & Hes & Hpre & He & Hval); [|done].
      by exists key, t, c, item_data, es, pre, e, post, v. }
    split; [|by split].
    intros label (entry & -> & Hin)%list_elem_of_fmap. destruct entry as [l vs].
    apply Hfull in Hin as (key & ? & ? & ? & ? & ? & ? & ? & ? & Hin & _).
    apply list_elem_of_fmap. by exists (l, key).
  - intros Hfacts Hitems. rewrite process_financial_statement_wf by done.
    eexists. split; [done|]. intros label vs Hin.
    apply foldl_add_found_entries in Hin
      as [?%not_elem_of_nil|(key & v & _ & Hv & ->)]; [done|].
    exists v. split; [done|].
    apply found_value_Some in Hv as (t & c & item_data & es & _ & Hrec & Husd & Hv).
    apply (item_value_number item_data acc);
      [by apply (wf_facts_concept_record facts t c)|].
    unfold item_value. by rewrite Husd.
Qed.

Lemma process_financial_statement_row_witness :
  NoDup ([("Revenue", [PInt 1000]); ("Net Income", [PInt 200])] : DataFrame).*1 /\
  exists row,
    process_financial_statement example_facts example_items PNone "X1" = Ok row /\
    (forall label vs,
        (label, vs) ∈ row -> exists v, vs = [v] /\ is_number v = true).
Proof.
  split.
  - exact (proj1 (proj2 (proj1 (process_financial_statement_row
                                  example_facts PNone example_items "X1")
                               [("Revenue", [PInt 1000]); ("Net Income", [PInt 200])]
                               eq_refl))).
  - exact (proj2 (process_financial_statement_row
                    example_facts PNone example_items "X1") eq_refl eq_refl).
Defined.

(** C6.  An item whose units lack the USD key and an item whose USD
    sequence is empty both yield [None], for every accession: the result
    does not tell the two apart. *)
Theorem get_value_for_accession_usd_absent_or_empty
    (d1 u1 d2 u2 : gmap string pyval) (acc : string) :
  d1 !! "units" = Some (PDict u1) -> u1 !! "USD" = None ->
  d2 !! "units" = Some (PDict u2) -> u2 !! "USD" = Some (PList []) ->
  get_value_for_accession (PDict d1) acc = Ok PNone /\
  get_value_for_accession (PDict d2) acc = Ok PNone /\
  get_value_for_accession (PDict d1) acc = get_value_for_accession (PDict d2) acc.
Proof.
  intros Hd1 Hu1 Hd2 Hu2.
  assert (H1 := get_value_for_accession_no_usd d1 u1 acc Hd1 Hu1).
  assert (H2 : get_value_for_accession (PDict d2) acc = Ok PNone).
  { rewrite (get_value_for_accession_usd _ []); [done|].
    cbn. rewrite Hd2. by rewrite Hu2. }
  by rewrite H1, H2.
Qed.

Lemma get_value_for_accession_usd_absent_or_empty_witness :
  get_value_for_accession (PDict {[ "units" := PDict ∅ ]}) "A" = Ok PNone /\
  get_value_for_accession (usd_item []) "A" = Ok PNone /\
  get_value_for_accession (PDict {[ "units" := PDict ∅ ]}) "A" =
    get_value_for_accession (usd_item []) "A".
Proof.
  exact (get_value_for_accession_usd_absent_or_empty
           {[ "units" := PDict ∅ ]} ∅
           {[ "units" := PDict {[ "USD" := PList [] ]} ]} {[ "USD" := PList [] ]}
           "A" eq_refl eq_refl eq_refl eq_refl).
Defined.

(** C7.  The three built-in report definitions: labels in declared order,
    each with the taxonomy and concept its key splits into; all taxonomies
    are us-gaap. *)
Theorem report_definitions :
  (fun entry => (entry.1, split ":" entry.2)) <$> income_items =
    [ ("Revenue", ["us-gaap"; "Revenues"]);
      ("Cost of Revenue", ["us-gaap"; "CostOfRevenue"]);
      ("Gross Profit", ["us-gaap"; "GrossProfit"]);
      ("Operating Expenses", ["us-gaap"; "OperatingExpenses"]);
      ("Operating Income", ["us-gaap"; "OperatingIncomeLoss"]);
      ("Net Income", ["us-gaap"; "NetIncomeLoss"]) ] /\
  (fun entry => (entry.1, split ":" entry.2)) <$> cash_flow_items =
    [ ("Cash from Operating Activities",
       ["us-gaap"; "NetCashProvidedByUsedInOperatingActivities"]);
      ("Cash from Investing Activities",
       ["us-gaap"; "NetCashProvidedByUsedInInvestingActivities"]);
      ("Cash from Financing Activities",
       ["us-gaap"; "NetCashProvidedByUsedInFinancingActivities"]);
      ("Net Change in Cash", ["us-gaap"; "NetIncreaseDecreaseInCash"]) ] /\
  (fun entry => (entry.1, split ":" entry.2)) <$> balance_sheet_items =
    [ ("Total Assets", ["us-gaap"; "Assets"]);
      ("Total Liabilities", ["us-gaap"; "Liabilities"]);
      ("Total Equity", ["us-gaap"; "StockholdersEquity"]);
      ("Cash and Cash Equivalents",
       ["us-gaap"; "CashAndCashEquivalentsAtCarryingValue"]);
      ("Total Current Assets", ["us-gaap"; "AssetsCurrent"]);
      ("Total Current Liabilities", ["us-gaap"; "LiabilitiesCurrent"]) ] /\
  (forall (facts fd : pyval) (acc : string),
      process_income_statement facts fd acc =
        process_financial_statement facts income_items fd acc /\
      process_cash_flow_statement facts fd acc =
        process_financial_statement facts cash_flow_items fd acc /\
      process_balance_sheet facts fd acc =
        process_financial_statement facts balance_sheet_items fd acc).
Proof. repeat split; reflexivity. Qed.

(** C8.  When exactly one Observation of the USD sequence has the target
    accession, two items whose USD sequences are permutations of each other
    give the same value. *)
Theorem get_value_for_accession_permutation
    (item1 item2 : pyval) (es1 es2 : list pyval) (acc : string) :
  usd_sequence item1 = Some es1 -> usd_sequence item2 = Some es2 ->
  forallb is_observation es1 = true ->
  es1 ≡ₚ es2 ->
  length (filter (fun e => accession e = Some acc) es1) = 1 ->
  get_value_for_accession item1 acc = get_value_for_accession item2 acc.
Proof.
  intros H1 H2 Hobs Hperm Hone.
  rewrite (get_value_for_accession_usd _ _ _ H1).
  rewrite (get_value_for_accession_usd _ _ _ H2).
  rewrite !scan_entries_filter
    by eauto using forallb_is_observation_Permutation.
  destruct (filter _ es1) as [|e [|]] eqn:Hf; try discriminate.
  assert (Hf2 : filter (fun e => accession e = Some acc) es2 ≡ₚ [e]).
  { rewrite <- Hf. by rewrite Hperm. }
  by apply Permutation_singleton_r in Hf2 as ->.
Qed.

Lemma get_value_for_accession_permutation_witness :
  get_value_for_accession
    (usd_item [observation "A" 10; observation "B" 20]) "B" =
  get_value_for_accession
    (usd_item [observation "B" 20; observation "A" 10]) "B".
Proof.
  apply (get_value_for_accession_permutation _ _
           [observation "A" 10; observation "B" 20]
           [observation "B" 20; observation "A" 10]);
    [reflexivity | reflexivity | reflexivity | apply perm_swap | reflexivity].
Defined.

(** C9.  The filing date is not looked at: two calls that differ only in
    it return the same table, for [process_financial_statement] and for
    the three statement processors. *)
Theorem filing_date_irrelevant
    (facts fd1 fd2 : pyval) (items : list (string * string)) (acc : string) :
  process_financial_statement facts items fd1 acc =
    process_financial_statement facts items fd2 acc /\
  process_income_statement facts fd1 acc =
    process_income_statement facts fd2 acc /\
  process_cash_flow_statement facts fd1 acc =
    process_cash_flow_statement facts fd2 acc /\
  process_balance_sheet facts fd1 acc =
    process_balance_sheet facts fd2 acc.
Proof. repeat split; reflexivity. Qed.

(** C10.  An item that is a dict without the ["units"] key yields [None]
    for every accession; nothing is raised. *)
Theorem get_value_for_accession_without_units
    (d : gmap string pyval) (acc : string) :
  d !! "units" = None ->
  get_value_for_accession (PDict d) acc = Ok PNone.
Proof. apply get_value_for_accession_no_units. Qed.

Lemma get_value_for_accession_without_units_witness :
  get_value_for_accession
    (PDict {[ "USD" := PList [observation "A" 10] ]}) "A" = Ok PNone.
Proof.
  apply (get_value_for_accession_without_units
           {[ "USD" := PList [observation "A" 10] ]} "A").
  reflexivity.
Defined.

(** * Further properties *)

(** ** The scan of the entries, entry by entry *)

Section Scan.
Implicit Types (item_data entry e : pyval) (entries es pre post : list pyval).
Implicit Types (acc : string).

Lemma py_eq_str_false (a : pyval) acc : a <> PStr acc -> py_eq_str a acc = false.
Proof.
  destruct a as [| | | |s| |]; try done. cbn. intros Hne.
  apply String.eqb_neq. congruence.
Qed.

Lemma scan_entries_passed_over pre es acc :
  Forall (passed_over acc) pre ->
  scan_entries (pre ++ es) acc = scan_entries es acc.
Proof.
  induction 1 as [|x pre (d & a & -> & Ha & Hne) _ IH]; [done|].
  cbn. rewrite Ha. cbn. by rewrite py_eq_str_false.
Qed.

Lemma get_value_for_accession_prefix item_data pre e post acc v :
  usd_sequence item_data = Some (pre ++ e :: post) ->
  Forall (passed_over acc) pre ->
  accession e = Some acc -> value e = Some v ->
  get_value_for_accession item_data acc = Ok v.
Proof.
  intros Husd Hpre He Hv. rewrite (get_value_for_accession_usd _ _ _ Husd).
  rewrite scan_entries_passed_over by done. by apply scan_entries_hit.
Qed.

Lemma is_observation_passed_over e acc :
  is_observation e = true -> accession e <> Some acc -> passed_over acc e.
Proof.
  unfold is_observation, accession. dict_case e d.
  destruct (d !! "accn") as [a|] eqn:Ha; [|done].
  destruct a as [| | | |s| |]; try done. intros _ Hne.
  exists d, (PStr s). split; [done|]. split; [done|]. congruence.
Qed.
End Scan.

(** X1.  The lookup stops at the first entry whose accn is the target: it
    returns the val of that entry, whatever it is, and does not look at
    the entries after it, which may have any shape.  Of the entries before
    it, it only reads an accn that differs from the target. *)
Theorem get_value_for_accession_stops_at_first_match
    (item_data : pyval) (pre : list pyval) (e : pyval) (post : list pyval)
    (acc : string) (v : pyval) :
  usd_sequence item_data = Some (pre ++ e :: post) ->
  Forall (passed_over acc) pre ->
  accession e = Some acc -> value e = Some v ->
  get_value_for_accession item_data acc = Ok v.
Proof. apply get_value_for_accession_prefix. Qed.

Lemma get_value_for_accession_stops_at_first_match_witness :
  get_value_for_accession
    (usd_item [ PDict {[ "accn" := PInt 7 ]}; observation "A" 10;
                PNone; PStr "not an entry" ]) "A" = Ok (PInt 10).
Proof.
  apply (get_value_for_accession_stops_at_first_match _
           [PDict {[ "accn" := PInt 7 ]}] (observation "A" 10)
           [PNone; PStr "not an entry"] "A" (PInt 10)).
  - reflexivity.
  - constructor; [|constructor].
    exists {[ "accn" := PInt 7 ]}, (PInt 7). by repeat split.
  - reflexivity.
  - reflexivity.
Defined.

(** X2.  An entry that is met before any entry of the target accession and
    cannot be read makes the lookup raise, whatever follows it: TypeError
    when it is not a dict, KeyError when it is a dict without accn, and
    KeyError when its accn is the target but it has no val. *)
Theorem get_value_for_accession_malformed_entry
    (item_data : pyval) (pre : list pyval) (bad : pyval) (post : list pyval)
    (acc : string) :
  usd_sequence item_data = Some (pre ++ bad :: post) ->
  Forall (passed_over acc) pre ->
  ((forall d, bad <> PDict d) ->
   get_value_for_accession item_data acc = Raise TypeError) /\
  (forall d, bad = PDict d -> d !! "accn" = None ->
   get_value_for_accession item_data acc = Raise KeyError) /\
  (forall d, bad = PDict d -> d !! "accn" = Some (PStr acc) -> d !! "val" = None ->
   get_value_for_accession item_data acc = Raise KeyError).
Proof.
  intros Husd Hpre. rewrite (get_value_for_accession_usd _ _ _ Husd).
  rewrite scan_entries_passed_over by done. repeat split.
  - intros Hbad. destruct bad as [| | | | | |d]; try done. by destruct (Hbad d).
  - intros d -> Ha. cbn. by rewrite Ha.
  - intros d -> Ha Hv. cbn. rewrite Ha. cbn. by rewrite String.eqb_refl, Hv.
Qed.

Lemma get_value_for_accession_malformed_entry_witness :
  get_value_for_accession
    (usd_item [observation "B" 1; PInt 3; observation "A" 10]) "A"
    = Raise TypeError /\
  get_value_for_accession
    (usd_item [observation "B" 1; PDict {[ "val" := PInt 3 ]}; observation "A" 10])
    "A" = Raise KeyError /\
  get_value_for_accession
    (usd_item [observation "B" 1; PDict {[ "accn" := PStr "A" ]}; observation "A" 10])
    "A" = Raise KeyError.
Proof.
  assert (Hpre : Forall (passed_over "A") [observation "B" 1]).
  { constructor; [|constructor].
    exists {[ "accn" := PStr "B"; "val" := PInt 1 ]}, (PStr "B").
    by repeat split. }
  split; [|split].
  - apply (proj1 (get_value_for_accession_malformed_entry
             (usd_item [observation "B" 1; PInt 3; observation "A" 10])
             [observation "B" 1] (PInt 3) [observation "A" 10] "A"
             eq_refl Hpre)).
    discriminate.
  - apply (proj1 (proj2 (get_value_for_accession_malformed_entry
             (usd_item [observation "B" 1; PDict {[ "val" := PInt 3 ]};
                        observation "A" 10])
             [observation "B" 1] (PDict {[ "val" := PInt 3 ]})
             [observation "A" 10] "A" eq_refl Hpre))
             {[ "val" := PInt 3 ]}); reflexivity.
  - apply (proj2 (proj2 (get_value_for_accession_malformed_entry
             (usd_item [observation "B" 1; PDict {[ "accn" := PStr "A" ]};
                        observation "A" 10])
             [observation "B" 1] (PDict {[ "accn" := PStr "A" ]})
             [observation "A" 10] "A" eq_refl Hpre))
             {[ "accn" := PStr "A" ]}); reflexivity.
Defined.

(** X3.  When the first entry of the target accession has a null val, the
    label is left out of every row the projection returns, even if a later
    entry of the same accession holds a number. *)
Theorem process_financial_statement_null_value
    (facts fd : pyval) (items : list (string * string))
    (acc label key t c : string) (item_data : pyval)
    (pre : list pyval) (e : pyval) (post : list pyval) (row : DataFrame) :
  NoDup items.*1 -> (label, key) ∈ items -> split ":" key = [t; c] ->
  concept_record facts t c = Some item_data ->
  usd_sequence item_data = Some (pre ++ e :: post) ->
  Forall (passed_over acc) pre ->
  accession e = Some acc -> value e = Some PNone ->
  process_financial_statement facts items fd acc = Ok row ->
  dict_get row label = None.
Proof.
  intros Hnodup Hin Hsplit Hrec Husd Hpre He Hv Hrow.
  pose proof (get_value_for_accession_prefix _ _ _ _ _ _ Husd Hpre He Hv) as Hnone.
  apply process_financial_statement_sound in Hrow as [_ Hrow].
  apply dict_get_None.
  intros (entry & -> & Hentry)%list_elem_of_fmap. destruct entry as [l vs].
  apply Hrow in Hentry
    as (key' & t' & c' & item_data' & v & Hin' & Hsplit' & Hrec' & Hv' & Hne & _).
  cbn in Hin'. rewrite (NoDup_fst_functional _ _ _ _ Hnodup Hin' Hin) in Hsplit'.
  rewrite Hsplit in Hsplit'. injection Hsplit' as <- <-. congruence.
Qed.

Lemma process_financial_statement_null_value_witness :
  dict_get ([] : DataFrame) "Revenue" = None.
Proof.
  apply (process_financial_statement_null_value
           (PDict {[ "ns" := PDict {[ "Revenues" :=
              usd_item [ PDict {[ "accn" := PStr "X1"; "val" := PNone ]};
                         observation "X1" 1000 ] ]} ]})
           PNone [("Revenue", "ns:Revenues")] "X1" "Revenue" "ns:Revenues"
           "ns" "Revenues"
           (usd_item [ PDict {[ "accn" := PStr "X1"; "val" := PNone ]};
                       observation "X1" 1000 ])
           [] (PDict {[ "accn" := PStr "X1"; "val" := PNone ]})
           [observation "X1" 1000] []).
  - apply (bool_decide_unpack _). vm_compute. exact I.
  - apply (bool_decide_unpack _). vm_compute. exact I.
  - reflexivity.
  - reflexivity.
  - reflexivity.
  - constructor.
  - reflexivity.
  - reflexivity.
  - reflexivity.
Defined.

Section Fields.
Implicit Types (e : pyval) (es : list pyval) (acc : string).

Lemma is_observation_fields_read e1 e2 :
  fields_read e1 = fields_read e2 -> is_observation e1 = is_observation e2.
Proof. unfold fields_read, is_observation. by intros [= -> ->]. Qed.

Lemma scan_entries_fields_read es1 es2 acc :
  forallb is_observation es1 = true ->
  fields_read <$> es1 = fields_read <$> es2 ->
  scan_entries es1 acc = scan_entries es2 acc.
Proof.
  revert es2. induction es1 as [|e1 es1 IH]; intros [|e2 es2]; try done.
  intros [He Hes]%andb_prop. rewrite !fmap_cons. intros [= Ha Hv Hrest].
  assert (Hf : fields_read e1 = fields_read e2)
    by (unfold fields_read; congruence).
  rewrite !scan_entries_observation
    by (by rewrite <- ?(is_observation_fields_read _ _ Hf)).
  unfold matches. rewrite <- Ha, <- Hv.
  destruct (accession e1) as [a|]; [|by apply IH].
  destruct (String.eqb a acc); [done|by apply IH].
Qed.
End Fields.

(** X4.  The lookup reads nothing but the accn and val of the USD entries:
    two items whose USD sequences of Observations agree on these two fields,
    entry by entry, give the same result, whatever their other units, their
    other keys and the other fields of their entries. *)
Theorem get_value_for_accession_reads_accn_val
    (item1 item2 : pyval) (es1 es2 : list pyval) (acc : string) :
  usd_sequence item1 = Some es1 -> usd_sequence item2 = Some es2 ->
  forallb is_observation es1 = true ->
  fields_read <$> es1 = fields_read <$> es2 ->
  get_value_for_accession item1 acc = get_value_for_accession item2 acc.
Proof.
  intros H1 H2 Hobs Hfields.
  rewrite (get_value_for_accession_usd _ _ _ H1).
  rewrite (get_value_for_accession_usd _ _ _ H2).
  by apply scan_entries_fields_read.
Qed.

Lemma get_value_for_accession_reads_accn_val_witness :
  get_value_for_accession (usd_item [observation "A" 10]) "A" =
  get_value_for_accession
    (PDict {[ "label" := PStr "Revenues";
              "units" := PDict {[
                "EUR" := PList [observation "A" 9];
                "USD" := PList [ PDict {[ "accn" := PStr "A"; "val" := PInt 10;
                                          "fy" := PInt 2023;
                                          "form" := PStr "10-K" ]} ] ]} ]}) "A".
Proof.
  apply (get_value_for_accession_reads_accn_val _ _
           [observation "A" 10]
           [ PDict {[ "accn" := PStr "A"; "val" := PInt 10;
                      "fy" := PInt 2023; "form" := PStr "10-K" ]} ]);
    reflexivity.
Defined.

(** ** The loop of the projection, label by label *)

Section DictRoundTrip.
Context {V : Type}.
Implicit Types (d : list (string * V)) (k : string) (v : V).

Lemma dict_get_dict_set_eq d k v : dict_get (dict_set d k v) k = Some v.
Proof.
  induction d as [|[k0 v0] d IH]; cbn; [by rewrite String.eqb_refl|].
  destruct (String.eqb k0 k) eqn:Heq; cbn; by rewrite Heq.
Qed.

Lemma dict_get_dict_set_ne d k v k' :
  k <> k' -> dict_get (dict_set d k v) k' = dict_get d k'.
Proof.
  intros Hne. induction d as [|[k0 v0] d IH]; cbn.
  - by apply String.eqb_neq in Hne as ->.
  - destruct (String.eqb k0 k) eqn:Heq; cbn; [|by rewrite IH].
    apply String.eqb_eq in Heq as ->. by apply String.eqb_neq in Hne as ->.
Qed.

Lemma dict_set_fresh d k v : k ∉ d.*1 -> dict_set d k v = d ++ [(k, v)].
Proof.
  induction d as [|[k0 v0] d IH]; cbn; [done|]. intros Hk.
  destruct (String.eqb k0 k) eqn:Heq.
  - apply String.eqb_eq in Heq as ->. destruct Hk. by left.
  - rewrite IH; [done|]. intros Hin. apply Hk. by right.
Qed.
End DictRoundTrip.

Section Loop.
Implicit Types (facts item_data fd : pyval) (acc label key : string).
Implicit Types (items : list (string * string)).
Implicit Types (data row : list (string * list pyval)).

Lemma process_items_app facts items1 items2 acc data :
  process_items facts (items1 ++ items2) acc data =
    data' ← process_items facts items1 acc data;
    process_items facts items2 acc data'.
Proof.
  revert data. induction items1 as [|[l k] items1 IH]; intros data; [done|].
  cbn. destruct (process_item facts acc data l k); cbn; [apply IH|done].
Qed.

(** A round of the loop whose concept has a record. *)
Lemma process_item_found facts acc data label key t c item_data :
  split ":" key = [t; c] -> concept_record facts t c = Some item_data ->
  process_item facts acc data label key =
    value ← get_value_for_accession item_data acc;
    match value with
    | PNone => Ok data
    | _ => Ok (dict_set data label [value])
    end.
Proof.
  intros Hsplit Hrec. unfold process_item. rewrite Hsplit.
  unfold concept_record in Hrec. dict_case facts ts.
  destruct (ts !! t) as [[| | | | | |cs]|] eqn:Ht; try done.
  cbn. rewrite Ht. cbn. by rewrite Hrec.
Qed.

Lemma process_items_get_other facts items acc data row label :
  process_items facts items acc data = Ok row -> label ∉ items.*1 ->
  dict_get row label = dict_get data label.
Proof.
  revert data. induction items as [|[l k] items IH]; cbn; intros data.
  - by intros [= <-].
  - destruct (process_item facts acc data l k) as [data'|e] eqn:Hstep;
      [|discriminate]. cbn. intros Hrow Hlabel.
    rewrite (IH _ Hrow) by (intros Hin; apply Hlabel; by right).
    apply process_item_sound in Hstep as [->|(? & ? & ? & v & _ & _ & _ & _ & ->)];
      [done|].
    apply dict_get_dict_set_ne. intros ->. apply Hlabel. by left.
Qed.

Lemma process_items_present facts items acc data row label key t c item_data v :
  process_items facts items acc data = Ok row ->
  NoDup items.*1 -> (label, key) ∈ items -> split ":" key = [t; c] ->
  concept_record facts t c = Some item_data ->
  get_value_for_accession item_data acc = Ok v -> v <> PNone ->
  dict_get row label = Some [v].
Proof.
  intros Hrow Hnodup Hin Hsplit Hrec Hv Hne. revert data Hrow.
  induction items as [|[l k] items IH]; [by apply not_elem_of_nil in Hin|].
  cbn. intros data.
  destruct (process_item facts acc data l k) as [data'|e] eqn:Hstep;
    [|discriminate]. cbn. intros Hrow.
  cbn in Hnodup. apply NoDup_cons in Hnodup as [Hl Hnodup].
  apply elem_of_cons in Hin as [[= <- <-]|Hin]; [|by apply (IH Hnodup Hin data')].
  rewrite (process_items_get_other _ _ _ _ _ _ Hrow Hl).
  rewrite (process_item_found _ _ _ _ _ _ _ _ Hsplit Hrec), Hv in Hstep.
  cbn in Hstep. destruct v; try done; injection Hstep as <-;
    apply dict_get_dict_set_eq.
Qed.

Lemma process_items_keys facts items acc data row :
  process_items facts items acc data = Ok row ->
  exists ks, row.*1 = data.*1 ++ ks /\ ks `sublist_of` items.*1.
Proof.
  revert data. induction items as [|[l k] items IH]; cbn; intros data.
  - intros [= <-]. exists []. by rewrite app_nil_r.
  - destruct (process_item facts acc data l k) as [data'|e] eqn:Hstep;
      [|discriminate]. cbn. intros (ks & Hrow & Hks)%IH.
    apply process_item_sound in Hstep as [->|(? & ? & ? & v & _ & _ & _ & _ & ->)].
    + exists ks. split; [done|]. by apply sublist_cons.
    + rewrite dict_set_keys in Hrow. case_decide.
      * exists ks. split; [done|]. by apply sublist_cons.
      * exists (l :: ks). rewrite <- app_assoc in Hrow. split; [done|].
        by apply sublist_skip.
Qed.

Lemma process_financial_statement_sublist facts items fd acc row :
  process_financial_statement facts items fd acc = Ok row ->
  row.*1 `sublist_of` items.*1.
Proof.
  unfold process_financial_statement.
  destruct (process_items facts items acc []) as [data|e] eqn:Hitems;
    [|discriminate]. cbn. intros [= <-].
  apply process_items_keys in Hitems as (ks & Hrow & Hks). cbn in Hrow.
  by rewrite <- Hrow in Hks.
Qed.
End Loop.

(** X5.  A label whose concept has a record for which the lookup returns a
    value other than [None] is a key of every row the projection returns,
    and the column under it is that single value; on a well-formed
    repository such a row is returned.  (Labels are the keys of a dict,
    hence distinct.) *)
Theorem process_financial_statement_presence
    (facts fd : pyval) (items : list (string * string))
    (acc label key t c : string) (item_data v : pyval) :
  NoDup items.*1 -> (label, key) ∈ items -> split ":" key = [t; c] ->
  concept_record facts t c = Some item_data ->
  get_value_for_accession item_data acc = Ok v -> v <> PNone ->
  (forall row,
      process_financial_statement facts items fd acc = Ok row ->
      dict_get row label = Some [v]) /\
  (wf_facts facts = true -> wf_items items = true ->
   exists row, process_financial_statement facts items fd acc = Ok row /\
               dict_get row label = Some [v]).
Proof.
  intros Hnodup Hin Hsplit Hrec Hv Hne.
  assert (Hany : forall row,
             process_financial_statement facts items fd acc = Ok row ->
             dict_get row label = Some [v]).
  { intros row. unfold process_financial_statement.
    destruct (process_items facts items acc []) as [data|e] eqn:Hitems;
      [|discriminate]. cbn. intros [= <-].
    by apply (process_items_present facts items acc [] data label key t c item_data). }
  split; [done|]. intros Hfacts Hitems.
  destruct (process_financial_statement facts items fd acc) as [row|e] eqn:Hrow.
  - exists row. split; [done|]. by apply Hany.
  - by rewrite process_financial_statement_wf in Hrow.
Qed.

Lemma process_financial_statement_presence_witness :
  exists row,
    process_financial_statement example_facts example_items PNone "X1" = Ok row /\
    dict_get row "Net Income" = Some [PInt 200].
Proof.
  assert (Hnodup : NoDup example_items.*1)
    by (apply (bool_decide_unpack _); vm_compute; exact I).
  assert (Hin : ("Net Income", "ns:NetIncomeLoss") ∈ example_items)
    by (apply (bool_decide_unpack _); vm_compute; exact I).
  destruct (process_financial_statement_presence
              example_facts PNone example_items "X1" "Net Income"
              "ns:NetIncomeLoss" "ns" "NetIncomeLoss"
              (usd_item [observation "X1" 200]) (PInt 200)
              Hnodup Hin eq_refl eq_refl eq_refl) as [_ Hrow]; [discriminate|].
  exact (Hrow eq_refl eq_refl).
Defined.

(** X6.  The columns of a returned row come in the order of the report
    definition: the labels of the row are a subsequence of the labels of
    the definition, so a row has no more columns than the definition has
    labels. *)
Theorem process_financial_statement_order
    (facts fd : pyval) (items : list (string * string)) (acc : string)
    (row : DataFrame) :
  process_financial_statement facts items fd acc = Ok row ->
  row.*1 `sublist_of` items.*1 /\ length row <= length items.
Proof.
  intros Hks%process_financial_statement_sublist. split; [done|].
  apply sublist_length in Hks. by rewrite !length_fmap in Hks.
Qed.

Lemma process_financial_statement_order_witness :
  ["Revenue"; "Net Income"] `sublist_of` income_items.*1 /\ 2 <= 6.
Proof.
  exact (process_financial_statement_order
           (PDict {[ "us-gaap" := PDict {[
              "NetIncomeLoss" := usd_item [observation "X1" 200];
              "Revenues" := usd_item [observation "X1" 1000] ]} ]})
           PNone income_items "X1"
           [("Revenue", [PInt 1000]); ("Net Income", [PInt 200])] eq_refl).
Defined.

(** ** Which exceptions can come out *)

Section Exceptions.
Implicit Types (facts item_data fd : pyval) (acc label key : string).
Implicit Types (items : list (string * string)).
Implicit Types (data row : list (string * list pyval)).

Lemma scan_entries_not_ValueError (es : list pyval) acc :
  scan_entries es acc <> Raise ValueError.
Proof.
  induction es as [|e es IH]; cbn; [done|].
  destruct e as [| | | | | |d]; try done. cbn.
  destruct (d !! "accn") as [a|]; [|done]. cbn.
  destruct (py_eq_str a acc); [|done]. by destruct (d !! "val").
Qed.

Lemma get_value_for_accession_not_ValueError item_data acc :
  get_value_for_accession item_data acc <> Raise ValueError.
Proof.
  unfold get_value_for_accession.
  destruct item_data as [| | | |s|l|d]; cbn; try done.
  - by destruct (str_contains _ _).
  - by destruct (existsb _ _).
  - destruct (d !! "units") as [units|]; [|done]. cbn.
    destruct units as [| | | |s|l|u]; cbn; try done.
    + by destruct (str_contains _ _).
    + by destruct (existsb _ _).
    + destruct (u !! "USD") as [usd|]; [|done]. cbn.
      destruct usd as [| | | |s|es|u']; cbn; try done;
        apply scan_entries_not_ValueError.
Qed.

Lemma process_item_not_ValueError facts acc data label key :
  wf_item_key key = true ->
  process_item facts acc data label key <> Raise ValueError.
Proof.
  intros (t & c & Hsplit)%wf_item_key_split. unfold process_item.
  rewrite Hsplit. destruct facts as [| | | |s|l|ts]; cbn; try done.
  - by destruct (str_contains _ _).
  - by destruct (existsb _ _).
  - destruct (ts !! t) as [tx|]; [|done]. cbn.
    destruct tx as [| | | |s|l|cs]; cbn; try done.
    + by destruct (str_contains _ _).
    + by destruct (existsb _ _).
    + destruct (cs !! c) as [item_data|]; [|done]. cbn.
      pose proof (get_value_for_accession_not_ValueError item_data acc) as Hv.
      destruct (get_value_for_accession item_data acc) as [v|e]; cbn.
      * by destruct v.
      * congruence.
Qed.

Lemma process_item_bad_key facts acc data label key :
  wf_item_key key = false ->
  process_item facts acc data label key = Raise ValueError.
Proof.
  unfold wf_item_key, process_item. intros Hkey%Nat.eqb_neq.
  pose proof (split_length ":" key) as Hlen.
  destruct (split ":" key) as [|t [|c [|]]]; try done.
  cbn in Hlen. congruence.
Qed.

Lemma process_items_not_ValueError facts items acc data :
  wf_items items = true ->
  process_items facts items acc data <> Raise ValueError.
Proof.
  revert data. induction items as [|[l k] items IH]; [done|].
  intros data [Hk Hitems]%andb_prop. cbn.
  pose proof (process_item_not_ValueError facts acc data l k Hk) as Hstep.
  destruct (process_item facts acc data l k) as [data'|e]; cbn.
  - by apply IH.
  - congruence.
Qed.

Lemma process_financial_statement_never_ValueError facts items fd acc :
  wf_items items = true ->
  process_financial_statement facts items fd acc <> Raise ValueError.
Proof.
  intros Hitems. unfold process_financial_statement.
  pose proof (process_items_not_ValueError facts items acc [] Hitems) as Hloop.
  destruct (process_items facts items acc []); cbn; congruence.
Qed.
End Exceptions.

(** X7.  Whatever the repository holds, a projection whose keys all have
    exactly one colon never raises ValueError: only the shape of the
    repository can make it fail, with TypeError or KeyError. *)
Theorem process_financial_statement_not_ValueError
    (facts fd : pyval) (items : list (string * string)) (acc : string) :
  wf_items items = true ->
  process_financial_statement facts items fd acc <> Raise ValueError.
Proof. apply process_financial_statement_never_ValueError. Qed.

Lemma process_financial_statement_not_ValueError_witness :
  process_financial_statement (PDict {[ "us-gaap" := PNone ]})
    income_items PNone "X1" <> Raise ValueError.
Proof.
  apply (process_financial_statement_not_ValueError
           (PDict {[ "us-gaap" := PNone ]}) PNone income_items "X1").
  reflexivity.
Defined.

(** X8.  A key that does not hold exactly one colon makes the projection
    of a well-formed repository raise ValueError, whatever the labels
    before it found and whatever comes after it: no row is returned. *)
Theorem process_financial_statement_bad_key
    (facts fd : pyval) (before after : list (string * string))
    (acc label key : string) :
  wf_facts facts = true -> wf_items before = true ->
  wf_item_key key = false ->
  process_financial_statement facts (before ++ (label, key) :: after) fd acc
    = Raise ValueError.
Proof.
  intros Hfacts Hbefore Hkey. unfold process_financial_statement.
  rewrite process_items_app, process_items_wf by done. cbn.
  by rewrite process_item_bad_key.
Qed.

Lemma process_financial_statement_bad_key_witness :
  process_financial_statement example_facts
    ([("Revenue", "ns:Revenues")]
       ++ ("Net Income", "NetIncomeLoss") :: [("Assets", "ns:Assets")])
    PNone "X1" = Raise ValueError.
Proof.
  apply (process_financial_statement_bad_key example_facts PNone
           [("Revenue", "ns:Revenues")] [("Assets", "ns:Assets")]
           "X1" "Net Income" "NetIncomeLoss"); reflexivity.
Defined.

(** X9.  An exception raised by the lookup on the record of one label is
    the outcome of the whole projection: the values found for the labels
    before it are not returned. *)
Theorem process_financial_statement_aborts
    (facts fd : pyval) (before after : list (string * string))
    (acc label key t c : string) (item_data : pyval) (row : DataFrame) (e : exn) :
  process_financial_statement facts before fd acc = Ok row ->
  split ":" key = [t; c] ->
  concept_record facts t c = Some item_data ->
  get_value_for_accession item_data acc = Raise e ->
  process_financial_statement facts (before ++ (label, key) :: after) fd acc
    = Raise e.
Proof.
  unfold process_financial_statement. intros Hbefore Hsplit Hrec Hv.
  rewrite process_items_app.
  destruct (process_items facts before acc []) as [data|e']; [|discriminate].
  cbn. rewrite (process_item_found _ _ _ _ _ _ _ _ Hsplit Hrec), Hv. done.
Qed.

Lemma process_financial_statement_aborts_witness :
  process_financial_statement
    (PDict {[ "ns" := PDict {[
       "Revenues" := usd_item [observation "X1" 1000];
       "NetIncomeLoss" := usd_item [PDict {[ "val" := PInt 200 ]}] ]} ]})
    ([("Revenue", "ns:Revenues")] ++ ("Net Income", "ns:NetIncomeLoss") :: [])
    PNone "X1" = Raise KeyError.
Proof.
  apply (process_financial_statement_aborts
           (PDict {[ "ns" := PDict {[
              "Revenues" := usd_item [observation "X1" 1000];
              "NetIncomeLoss" := usd_item [PDict {[ "val" := PInt 200 ]}] ]} ]})
           PNone [("Revenue", "ns:Revenues")] [] "X1"
           "Net Income" "ns:NetIncomeLoss" "ns" "NetIncomeLoss"
           (usd_item [PDict {[ "val" := PInt 200 ]}])
           [("Revenue", [PInt 1000])] KeyError); reflexivity.
Defined.

(** ** What the projection depends on, and how it composes *)

Section Frame.
Implicit Types (facts item_data fd : pyval) (acc label key t : string).
Implicit Types (items : list (string * string)).
Implicit Types (data row : list (string * list pyval)).
Implicit Types (ts : gmap string pyval).

Lemma foldl_add_found_ext facts1 facts2 acc items data :
  (forall label key, (label, key) ∈ items ->
                     found_value facts1 key acc = found_value facts2 key acc) ->
  foldl (add_found facts1 acc) data items = foldl (add_found facts2 acc) data items.
Proof.
  revert data. induction items as [|[l k] items IH]; intros data Hext; [done|].
  cbn. unfold add_found at 2 4. cbn. rewrite (Hext l k) by left.
  apply IH. intros label key Hin. apply (Hext label key). by right.
Qed.

Lemma foldl_add_found_fresh facts acc items data :
  NoDup items.*1 -> (forall l, l ∈ items.*1 -> l ∉ data.*1) ->
  foldl (add_found facts acc) data items =
    data ++ foldl (add_found facts acc) [] items.
Proof.
  revert data. induction items as [|[l k] items IH]; intros data Hnodup Hfresh.
  - cbn. by rewrite app_nil_r.
  - cbn in Hnodup. apply NoDup_cons in Hnodup as [Hl Hnodup]. cbn.
    unfold add_found at 2 4. cbn.
    destruct (found_value facts k acc) as [v|].
    + rewrite dict_set_fresh by (apply Hfresh; by left). cbn.
      rewrite (IH (data ++ [(l, [v])])), (IH [(l, [v])]); try done.
      * by rewrite <- app_assoc.
      * intros l' Hl' ->%list_elem_of_singleton. done.
      * intros l' Hl'. rewrite fmap_app. intros [Hin|Hin]%elem_of_app.
        -- by apply (Hfresh l'); [right|].
        -- apply list_elem_of_singleton in Hin as ->. done.
    + apply IH; [done|]. intros l' Hl'. apply Hfresh. by right.
Qed.

Lemma foldl_add_found_keys facts acc items label :
  label ∈ (foldl (add_found facts acc) [] items).*1 -> label ∈ items.*1.
Proof.
  intros (entry & -> & Hin)%list_elem_of_fmap. destruct entry as [l vs].
  apply foldl_add_found_entries in Hin
    as [?%not_elem_of_nil|(key & v & Hin & _)]; [done|].
  apply list_elem_of_fmap. by exists (l, key).
Qed.

(** A round of the loop reads the repository at the taxonomy of its key
    and nowhere else. *)
Lemma process_item_taxonomy ts1 ts2 acc data label key t c :
  split ":" key = [t; c] -> ts1 !! t = ts2 !! t ->
  process_item (PDict ts1) acc data label key =
    process_item (PDict ts2) acc data label key.
Proof. unfold process_item. intros -> Ht. cbn. by rewrite Ht. Qed.

Lemma process_items_taxonomy ts1 ts2 acc items data t :
  Forall (fun entry => exists c, split ":" entry.2 = [t; c]) items ->
  ts1 !! t = ts2 !! t ->
  process_items (PDict ts1) items acc data =
    process_items (PDict ts2) items acc data.
Proof.
  intros Hitems Ht. revert data.
  induction Hitems as [|[l k] items [c Hsplit] _ IH]; intros data; [done|].
  cbn [process_items].
  rewrite (process_item_taxonomy ts1 ts2 acc data l k t c Hsplit Ht).
  destruct (process_item (PDict ts2) acc data l k); cbn; [apply IH|done].
Qed.
End Frame.

(** X10.  On well-formed repositories the projection depends on the
    repository only through the records of the concepts that the report
    definition names: two repositories that hold the same record, or none,
    for each of these concepts give the same table. *)
Theorem process_financial_statement_frame
    (facts1 facts2 fd : pyval) (items : list (string * string)) (acc : string) :
  wf_facts facts1 = true -> wf_facts facts2 = true -> wf_items items = true ->
  (forall label key t c,
      (label, key) ∈ items -> split ":" key = [t; c] ->
      concept_record facts1 t c = concept_record facts2 t c) ->
  process_financial_statement facts1 items fd acc =
    process_financial_statement facts2 items fd acc.
Proof.
  intros H1 H2 Hitems Hsame. rewrite !process_financial_statement_wf by done.
  f_equal. apply foldl_add_found_ext. intros label key Hin.
  assert (wf_item_key key = true) as (t & c & Hsplit)%wf_item_key_split.
  { unfold wf_items in Hitems. rewrite forallb_forall in Hitems.
    by apply (Hitems (label, key)), list_elem_of_In. }
  rewrite !(found_value_split _ _ _ _ _ Hsplit).
  by rewrite (Hsame label key t c).
Qed.

Lemma process_financial_statement_frame_witness :
  process_financial_statement
    (PDict {[ "ns" := PDict {[ "Revenues" := usd_item [observation "X1" 1000] ]} ]})
    [("Revenue", "ns:Revenues")] PNone "X1" =
  process_financial_statement
    (PDict {[ "dei" := PDict ∅;
              "ns" := PDict {[ "Assets" := usd_item [observation "X1" 5];
                               "Revenues" := usd_item [observation "X1" 1000] ]} ]})
    [("Revenue", "ns:Revenues")] PNone "X1".
Proof.
  apply process_financial_statement_frame; [reflexivity..|].
  intros label key t c [= -> ->]%list_elem_of_singleton [= <- <-].
  reflexivity.
Defined.

(** X11.  On a well-formed repository, projecting two report definitions
    written one after the other, with no label in common, gives the row
    of the first followed by the row of the second. *)
Theorem process_financial_statement_app
    (facts fd : pyval) (items1 items2 : list (string * string)) (acc : string) :
  wf_facts facts = true -> wf_items items1 = true -> wf_items items2 = true ->
  NoDup (items1 ++ items2).*1 ->
  exists row1 row2,
    process_financial_statement facts items1 fd acc = Ok row1 /\
    process_financial_statement facts items2 fd acc = Ok row2 /\
    process_financial_statement facts (items1 ++ items2) fd acc
      = Ok (row1 ++ row2).
Proof.
  intros Hfacts H1 H2 Hnodup.
  assert (wf_items (items1 ++ items2) = true) as H12.
  { unfold wf_items in *. by rewrite forallb_app, H1, H2. }
  rewrite !process_financial_statement_wf by done.
  eexists _, _. split; [done|]. split; [done|]. f_equal.
  rewrite fmap_app in Hnodup. apply NoDup_app in Hnodup as (_ & Hdisj & Hnodup2).
  rewrite foldl_app. apply foldl_add_found_fresh; [done|].
  intros l Hl2 Hl1%foldl_add_found_keys. by apply (Hdisj l).
Qed.

Lemma process_financial_statement_app_witness :
  exists row1 row2,
    process_financial_statement example_facts [("Revenue", "ns:Revenues")]
      PNone "X1" = Ok row1 /\
    process_financial_statement example_facts [("Net Income", "ns:NetIncomeLoss")]
      PNone "X1" = Ok row2 /\
    process_financial_statement example_facts
      ([("Revenue", "ns:Revenues")] ++ [("Net Income", "ns:NetIncomeLoss")])
      PNone "X1" = Ok (row1 ++ row2).
Proof.
  apply (process_financial_statement_app example_facts PNone
           [("Revenue", "ns:Revenues")] [("Net Income", "ns:NetIncomeLoss")] "X1");
    [reflexivity..|].
  apply (bool_decide_unpack _). vm_compute. exact I.
Defined.

(** X12.  The three statement processors read the repository at the
    us-gaap taxonomy and nowhere else: two repositories with the same
    us-gaap entry give the same three tables, and a repository without a
    us-gaap entry (an empty one, or one that only holds other taxonomies)
    gives three empty tables and no error. *)
Theorem statements_read_us_gaap
    (ts1 ts2 : gmap string pyval) (fd : pyval) (acc : string) :
  ts1 !! "us-gaap" = ts2 !! "us-gaap" ->
  (process_income_statement (PDict ts1) fd acc =
     process_income_statement (PDict ts2) fd acc /\
   process_cash_flow_statement (PDict ts1) fd acc =
     process_cash_flow_statement (PDict ts2) fd acc /\
   process_balance_sheet (PDict ts1) fd acc =
     process_balance_sheet (PDict ts2) fd acc) /\
  (ts1 !! "us-gaap" = None ->
   process_income_statement (PDict ts1) fd acc = Ok [] /\
   process_cash_flow_statement (PDict ts1) fd acc = Ok [] /\
   process_balance_sheet (PDict ts1) fd acc = Ok []).
Proof.
  intros Hsame.
  assert (Hitems : forall items,
             Forall (fun entry => exists c, split ":" entry.2 = ["us-gaap"; c]) items ->
             forall ts ts', ts !! "us-gaap" = ts' !! "us-gaap" ->
             process_financial_statement (PDict ts) items fd acc =
               process_financial_statement (PDict ts') items fd acc).
  { intros items Hall ts ts' Hts. unfold process_financial_statement.
    by rewrite (process_items_taxonomy ts ts' _ _ _ "us-gaap" Hall Hts). }
  assert (Hincome : Forall (fun entry => exists c, split ":" entry.2 = ["us-gaap"; c])
                      income_items)
    by (repeat constructor; by eexists).
  assert (Hcash : Forall (fun entry => exists c, split ":" entry.2 = ["us-gaap"; c])
                    cash_flow_items)
    by (repeat constructor; by eexists).
  assert (Hbalance : Forall (fun entry => exists c, split ":" entry.2 = ["us-gaap"; c])
                       balance_sheet_items)
    by (repeat constructor; by eexists).
  unfold process_income_statement, process_cash_flow_statement,
    process_balance_sheet. split.
  - by rewrite (Hitems _ Hincome ts1 ts2), (Hitems _ Hcash ts1 ts2),
      (Hitems _ Hbalance ts1 ts2).
  - intros Hnone.
    assert (Hempty : ts1 !! "us-gaap" = (∅ : gmap string pyval) !! "us-gaap")
      by by rewrite lookup_empty.
    by rewrite (Hitems _ Hincome ts1 ∅), (Hitems _ Hcash ts1 ∅),
      (Hitems _ Hbalance ts1 ∅).
Qed.

Lemma statements_read_us_gaap_witness :
  process_income_statement
    (PDict {[ "ifrs-full" := PDict {[ "Revenue" := usd_item [observation "X1" 7] ]} ]})
    PNone "X1" = Ok [].
Proof.
  destruct (statements_read_us_gaap
              {[ "ifrs-full" := PDict {[ "Revenue" := usd_item [observation "X1" 7] ]} ]}
              ∅ PNone "X1" eq_refl) as [_ Hempty].
  exact (proj1 (Hempty eq_refl)).
Defined.

(** X13.  The keys of the three built-in definitions are well formed, so
    the three statement processors never raise ValueError, whatever the
    repository holds; on a well-formed repository each returns a table,
    of at most six, four and six columns. *)
Theorem statements_total (facts fd : pyval) (acc : string) :
  (process_income_statement facts fd acc <> Raise ValueError /\
   process_cash_flow_statement facts fd acc <> Raise ValueError /\
   process_balance_sheet facts fd acc <> Raise ValueError) /\
  (wf_facts facts = true ->
   exists income cash_flow balance,
     process_income_statement facts fd acc = Ok income /\
     process_cash_flow_statement facts fd acc = Ok cash_flow /\
     process_balance_sheet facts fd acc = Ok balance /\
     length income <= 6 /\ length cash_flow <= 4 /\ length balance <= 6).
Proof.
  unfold process_income_statement, process_cash_flow_statement,
    process_balance_sheet.
  split.
  - repeat split; by apply process_financial_statement_never_ValueError.
  - intros Hfacts.
    destruct (process_financial_statement facts income_items fd acc)
      as [income|e] eqn:Hincome;
      [|by rewrite process_financial_statement_wf in Hincome].
    destruct (process_financial_statement facts cash_flow_items fd acc)
      as [cash_flow|e] eqn:Hcash;
      [|by rewrite process_financial_statement_wf in Hcash].
    destruct (process_financial_statement facts balance_sheet_items fd acc)
      as [balance|e] eqn:Hbalance;
      [|by rewrite process_financial_statement_wf in Hbalance].
    exists income, cash_flow, balance. do 3 (split; [done|]).
    apply process_financial_statement_sublist, sublist_length in Hincome.
    apply process_financial_statement_sublist, sublist_length in Hcash.
    apply process_financial_statement_sublist, sublist_length in Hbalance.
    rewrite !length_fmap in Hincome, Hcash, Hbalance. done.
Qed.

Lemma statements_total_witness :
  exists income cash_flow balance,
    process_income_statement
      (PDict {[ "us-gaap" := PDict {[
         "Revenues" := usd_item [observation "X1" 1000] ]} ]}) PNone "X1"
      = Ok income /\
    process_cash_flow_statement
      (PDict {[ "us-gaap" := PDict {[
         "Revenues" := usd_item [observation "X1" 1000] ]} ]}) PNone "X1"
      = Ok cash_flow /\
    process_balance_sheet
      (PDict {[ "us-gaap" := PDict {[
         "Revenues" := usd_item [observation "X1" 1000] ]} ]}) PNone "X1"
      = Ok balance /\
    length income <= 6 /\ length cash_flow <= 4 /\ length balance <= 6.
Proof.
  exact (proj2 (statements_total
                  (PDict {[ "us-gaap" := PDict {[
                     "Revenues" := usd_item [observation "X1" 1000] ]} ]})
                  PNone "X1") eq_refl).
Defined.

(** ** [get_cik]: the lines of the ticker file *)

Section Lines.
Context (lower : string -> string) (int : string -> result Z).
Implicit Types (text ticker line t c : string) (lines pre post : list string).

Lemma scan_lines_other pre lines ticker :
  Forall (other_ticker lower ticker) pre ->
  scan_lines lower int (pre ++ lines) ticker = scan_lines lower int lines ticker.
Proof.
  induction 1 as [|line pre (t & c & Hsplit & Hne) _ IH]; [done|].
  cbn. rewrite Hsplit. by apply String.eqb_neq in Hne as ->.
Qed.

Lemma scan_lines_match line lines ticker t c :
  split tab line = [t; c] -> lower t = lower ticker ->
  scan_lines lower int (line :: lines) ticker = z ← int c; Ok (Some z).
Proof. intros Hsplit Heq. cbn. by rewrite Hsplit, Heq, String.eqb_refl. Qed.

Lemma scan_lines_None lines ticker :
  scan_lines lower int lines ticker = Ok None <->
  Forall (other_ticker lower ticker) lines.
Proof.
  split; [|intros H; rewrite <- (app_nil_r lines); by rewrite scan_lines_other].
  induction lines as [|line lines IH]; [done|]. cbn.
  destruct (split tab line) as [|t [|c [|]]] eqn:Hsplit; try done.
  destruct (String.eqb (lower t) (lower ticker)) eqn:Heq.
  - by destruct (int c).
  - intros Hrest. constructor; [|by apply IH].
    exists t, c. split; [done|]. by apply String.eqb_neq.
Qed.

Lemma scan_lines_bad line lines ticker :
  count_char tab line <> 1 ->
  scan_lines lower int (line :: lines) ticker = Raise ValueError.
Proof.
  intros Hcount. cbn. pose proof (split_length tab line) as Hlen.
  destruct (split tab line) as [|t [|c [|]]]; try done.
  cbn in Hlen. congruence.
Qed.

Lemma scan_lines_lower lines ticker1 ticker2 :
  lower ticker1 = lower ticker2 ->
  scan_lines lower int lines ticker1 = scan_lines lower int lines ticker2.
Proof.
  intros Heq. induction lines as [|line lines IH]; [done|]. cbn.
  destruct (split tab line) as [|t [|c [|]]]; try done.
  rewrite Heq. by destruct (String.eqb _ _).
Qed.
End Lines.

(** X14.  [get_cik] returns the number read from the second field of the
    first line whose first field is the ticker up to case (or the
    ValueError of [int] on that field), provided the lines before it have
    two fields each; the lines after it are not read. *)
Theorem get_cik_first_match
    (lower : string -> string) (int : string -> result Z)
    (text ticker : string) (pre : list string) (line : string)
    (post : list string) (t c : string) :
  splitlines text = pre ++ line :: post ->
  Forall (other_ticker lower ticker) pre ->
  split tab line = [t; c] -> lower t = lower ticker ->
  get_cik lower int text ticker = z ← int c; Ok (Some z).
Proof.
  intros Hlines Hpre Hsplit Heq. unfold get_cik. rewrite Hlines.
  rewrite scan_lines_other by done. by apply (scan_lines_match _ _ _ _ _ t c).
Qed.

Lemma get_cik_first_match_witness :
  get_cik lower_ascii int_digits test_ticker_text "MSFT" = Ok (Some 789019%Z).
Proof.
  apply (get_cik_first_match lower_ascii int_digits test_ticker_text "MSFT"
           ["aapl" +:+ String tab "0000320193"]
           ("msft" +:+ String tab "0000789019") [] "msft" "0000789019").
  - reflexivity.
  - constructor; [|constructor]. exists "aapl", "0000320193".
    split; [reflexivity|discriminate].
  - reflexivity.
  - reflexivity.
Defined.

(** X15.  [get_cik] returns [None] exactly when every line of the file has
    two fields and no first field is the ticker up to case. *)
Theorem get_cik_not_found
    (lower : string -> string) (int : string -> result Z) (text ticker : string) :
  get_cik lower int text ticker = Ok None <->
  Forall (other_ticker lower ticker) (splitlines text).
Proof. apply scan_lines_None. Qed.

Lemma get_cik_not_found_witness :
  get_cik lower_ascii int_digits test_ticker_text "INVALID" = Ok None.
Proof.
  apply (proj2 (get_cik_not_found lower_ascii int_digits test_ticker_text "INVALID")).
  repeat constructor.
  - exists "aapl", "0000320193". split; [reflexivity|discriminate].
  - exists "msft", "0000789019". split; [reflexivity|discriminate].
Defined.

(** X16.  A line that does not hold exactly one tab, an empty line for
    one, makes [get_cik] raise ValueError when it comes before any line of
    the ticker, even if the ticker is listed further down. *)
Theorem get_cik_malformed_line
    (lower : string -> string) (int : string -> result Z)
    (text ticker : string) (pre : list string) (line : string)
    (post : list string) :
  splitlines text = pre ++ line :: post ->
  Forall (other_ticker lower ticker) pre ->
  count_char tab line <> 1 ->
  get_cik lower int text ticker = Raise ValueError.
Proof.
  intros Hlines Hpre Hcount. unfold get_cik. rewrite Hlines.
  rewrite scan_lines_other by done. by apply scan_lines_bad.
Qed.

Lemma get_cik_malformed_line_witness :
  get_cik lower_ascii int_digits
    ("aapl" +:+ String tab "0000320193" +:+ String "010" (String "010"
       ("msft" +:+ String tab "0000789019"))) "MSFT" = Raise ValueError.
Proof.
  apply (get_cik_malformed_line lower_ascii int_digits _ "MSFT"
           ["aapl" +:+ String tab "0000320193"] ""
           ["msft" +:+ String tab "0000789019"]).
  - reflexivity.
  - constructor; [|constructor]. exists "aapl", "0000320193".
    split; [reflexivity|discriminate].
  - discriminate.
Defined.

(** X17.  [get_cik] does not tell apart two tickers that are equal up to
    case. *)
Theorem get_cik_case_insensitive
    (lower : string -> string) (int : string -> result Z)
    (text ticker1 ticker2 : string) :
  lower ticker1 = lower ticker2 ->
  get_cik lower int text ticker1 = get_cik lower int text ticker2.
Proof. apply scan_lines_lower. Qed.

Lemma get_cik_case_insensitive_witness :
  get_cik lower_ascii int_digits test_ticker_text "AAPL" =
  get_cik lower_ascii int_digits test_ticker_text "aApl".
Proof.
  apply (get_cik_case_insensitive lower_ascii int_digits test_ticker_text
           "AAPL" "aApl").
  reflexivity.
Defined.

(** ** [get_cik]: reading back a ticker file *)

Section TickerFile.
Implicit Types (s t c line rest : string) (a x : ascii).

Lemma is_line_break_false a :
  is_line_break a = false -> Ascii.eqb a "013" = false.
Proof.
  unfold is_line_break. cbn. intros H.
  repeat (apply orb_false_elim in H as [? H]); done.
Qed.

(** A byte that does not start a line end goes to the line under way. *)
Lemma splitlines_no_line_end a s :
  starts_line_end (String a s) = false ->
  splitlines (String a s) =
    match splitlines s with
    | [] => [String a EmptyString]
    | line :: lines => String a line :: lines
    end.
Proof.
  unfold starts_line_end.
  intros [[Hbreak H194]%orb_false_elim H226]%orb_false_elim.
  pose proof (is_line_break_false a Hbreak) as H13.
  cbn [splitlines]. rewrite H13, Hbreak.
  destruct (Ascii.eqb a "194").
  - destruct s as [|c1 s1]; [done|]. cbn in H194. by rewrite H194.
  - destruct (Ascii.eqb a "226"); [|done].
    destruct s as [|c1 [|c2 s2]]; try done. cbn in H226. by rewrite H226.
Qed.

(** Writing a tab or a newline after a string opens no line end across
    the join. *)
Lemma starts_line_end_app a s x rest :
  Ascii.eqb x "133" = false -> Ascii.eqb x "128" = false ->
  Ascii.eqb x "168" = false -> Ascii.eqb x "169" = false ->
  starts_line_end (String a s) = false ->
  starts_line_end (String a (s +:+ String x rest)) = false.
Proof.
  intros H133 H128 H168 H169. unfold starts_line_end.
  intros [[Hbreak H194]%orb_false_elim H226]%orb_false_elim.
  rewrite Hbreak. cbn [orb].
  destruct s as [|c1 [|c2 s2]].
  - change (EmptyString +:+ String x rest) with (String x rest).
    cbv beta iota. rewrite H133, andb_false_r. cbn [orb].
    destruct rest; [by rewrite andb_false_r|].
    by rewrite H128, andb_false_l, andb_false_r.
  - change (String c1 EmptyString +:+ String x rest)
      with (String c1 (String x rest)).
    cbv beta iota in H194 |- *. rewrite H194, H168, H169. cbn [orb].
    by rewrite !andb_false_r.
  - change (String c1 (String c2 s2) +:+ String x rest)
      with (String c1 (String c2 (s2 +:+ String x rest))).
    cbv beta iota in H194, H226 |- *. by rewrite H194, H226.
Qed.

Lemma splitlines_line line rest :
  has_line_end line = false ->
  splitlines (line +:+ String "010" rest) = line :: splitlines rest.
Proof.
  induction line as [|a line IH]; [done|].
  cbn [has_line_end]. intros [Ha Hline]%orb_false_elim.
  change (String a line +:+ String "010" rest)
    with (String a (line +:+ String "010" rest)).
  rewrite splitlines_no_line_end by by apply starts_line_end_app.
  by rewrite IH.
Qed.

Lemma has_line_end_ticker_line t c :
  has_line_end t = false -> has_line_end c = false ->
  has_line_end (t +:+ String tab c) = false.
Proof.
  intros Ht Hc. induction t as [|a t IH].
  - change (EmptyString +:+ String tab c) with (String tab c).
    cbn [has_line_end]. by rewrite Hc.
  - change (String a t +:+ String tab c) with (String a (t +:+ String tab c)).
    cbn [has_line_end] in Ht |- *. apply orb_false_elim in Ht as [Ha Ht].
    by rewrite starts_line_end_app, IH.
Qed.

Lemma split_no_sep x s : count_char x s = 0 -> split x s = [s].
Proof.
  induction s as [|a s IH]; [done|]. cbn.
  destruct (Ascii.eqb a x); [done|]. intros Hs. by rewrite IH.
Qed.

Lemma split_two_fields x t c :
  count_char x t = 0 -> count_char x c = 0 ->
  split x (t +:+ String x c) = [t; c].
Proof.
  intros Ht Hc. induction t as [|a t IH].
  - change (EmptyString +:+ String x c) with (String x c). cbn.
    by rewrite Ascii.eqb_refl, split_no_sep.
  - change (String a t +:+ String x c) with (String a (t +:+ String x c)).
    cbn in Ht |- *. destruct (Ascii.eqb a x); [done|]. by rewrite IH.
Qed.

Lemma is_field_spec s :
  is_field s = true -> count_char tab s = 0 /\ has_line_end s = false.
Proof.
  unfold is_field. intros [Htab Hend]%andb_prop.
  split; [by apply Nat.eqb_eq|by apply negb_true_iff].
Qed.
End TickerFile.

Section ReadBack.
Context (lower : string -> string) (int : string -> result Z).
Implicit Types (ticker : string) (table : list (string * string)).

Lemma splitlines_ticker_file table :
  Forall (fun entry => is_field entry.1 = true /\ is_field entry.2 = true) table ->
  splitlines (ticker_file table) = ticker_line <$> table.
Proof.
  induction 1 as [|[t c] table [Ht Hc] _ IH]; [done|].
  apply is_field_spec in Ht as [_ Ht], Hc as [_ Hc].
  cbn [ticker_file]. rewrite splitlines_line, IH; [done|].
  by apply has_line_end_ticker_line.
Qed.

Lemma scan_lines_ticker_lines table ticker :
  Forall (fun entry => is_field entry.1 = true /\ is_field entry.2 = true) table ->
  scan_lines lower int (ticker_line <$> table) ticker =
    match List.find (fun entry => String.eqb (lower entry.1) (lower ticker)) table with
    | Some entry => z ← int entry.2; Ok (Some z)
    | None => Ok None
    end.
Proof.
  induction 1 as [|[t c] table [Ht Hc] _ IH]; [done|].
  apply is_field_spec in Ht as [Ht _], Hc as [Hc _].
  rewrite fmap_cons. cbn [scan_lines List.find]. unfold ticker_line at 1.
  cbn [fst snd]. rewrite split_two_fields by done.
  by destruct (String.eqb (lower t) (lower ticker)).
Qed.
End ReadBack.

(** X18.  Reading back a ticker file that holds one line
    [ticker, tab, number, newline] per entry of a table, the fields holding
    no tab and none of the line ends of [splitlines] (any other byte may
    occur): [get_cik] returns the number of the first entry of the table
    whose ticker is the wanted one up to case (or the ValueError of [int]
    on it), and [None] when the table has none. *)
Theorem get_cik_ticker_file
    (lower : string -> string) (int : string -> result Z)
    (table : list (string * string)) (ticker : string) :
  Forall (fun entry => is_field entry.1 = true /\ is_field entry.2 = true) table ->
  get_cik lower int (ticker_file table) ticker =
    match List.find (fun entry => String.eqb (lower entry.1) (lower ticker)) table with
    | Some entry => z ← int entry.2; Ok (Some z)
    | None => Ok None
    end.
Proof.
  intros Htable. unfold get_cik.
  rewrite splitlines_ticker_file by done. by apply scan_lines_ticker_lines.
Qed.

Lemma get_cik_ticker_file_witness :
  get_cik lower_ascii int_digits
    (ticker_file [ (String "194" (String "163" "gbp"), "7");
                   (String "226" (String "130" (String "172" "eur")), "8");
                   ("aapl", "320193"); ("msft", "789019"); ("AAPL", "1") ])
    "Aapl"
  = Ok (Some 320193%Z).
Proof.
  apply (get_cik_ticker_file lower_ascii int_digits
           [ (String "194" (String "163" "gbp"), "7");
             (String "226" (String "130" (String "172" "eur")), "8");
             ("aapl", "320193"); ("msft", "789019"); ("AAPL", "1") ] "Aapl").
  repeat constructor.
Defined.

(** The test of [get_cik] in [tests/test_EDGAR_SEC.py]. *)
Example test_get_cik :
  get_cik lower_ascii int_digits test_ticker_text "AAPL" = Ok (Some 320193%Z) /\
  get_cik lower_ascii int_digits test_ticker_text "MSFT" = Ok (Some 789019%Z) /\
  get_cik lower_ascii int_digits test_ticker_text "INVALID" = Ok None.
Proof. repeat split; reflexivity. Qed.
